(** * BERT.c (PIC16F648A, CCS C): the bit-synchronisation and error-counting
    engine, as a shallow embedding.

    The firmware regenerates a PN sequence in a 16-cell shift register
    ([tap]), locks onto the received stream ([countber], sync phase) and then
    counts bit errors over [TotalBits] bits ([countber], count phase).

    Conventions of the embedding:
    - CCS C types: [short] is one bit ([bool]); [int] is an unsigned 8-bit
      number and [long] an unsigned 16-bit number, both kept in [Z] with the
      wrap-around written out ([CCS.int8], [CCS.int16]).
    - The globals that a measurement only reads are the record [settings];
      those it writes are the record [machine].
    - The two busy-wait loops on CLK_IN delimit one bit period.  The embedding
      keeps one reading of DATA_IN per bit period: [DATA_IN n] is the level of
      the data pin when it is read in period [n], and the field [period] of
      the machine counts the periods elapsed (one per loop iteration).
    - Loops that need not terminate take a bound on the number of iterations
      ([fuel]) and return [None] when the bound is too small. *)

From Stdlib Require Import ZArith List Bool Lia.
Import ListNotations.
Local Open Scope Z_scope.

(** ** Compiler built-ins and data representation of CCS C *)

Module CCS.

(** [int] : 8 bits, unsigned. *)
Definition int8 (z : Z) : Z := z mod 256.

(** [long] : 16 bits, unsigned. *)
Definition int16 (z : Z) : Z := z mod 65536.

(** Assignment of a byte to a [short]: the low bit is kept. *)
Definition short_of_int8 (z : Z) : bool := Z.odd z.

(** [a[i]] on an array of [short]: element [i] is bit [i mod 8] of byte
    [i / 8] of the array, so the list gives the bits of the array from bit 0
    of its lowest byte upwards. *)
Definition get (a : list bool) (i : nat) : bool := nth i a false.

(** [a[i] = v]. *)
Fixpoint set (a : list bool) (i : nat) (v : bool) : list bool :=
  match a, i with
  | [], _ => []
  | _ :: r, O => v :: r
  | x :: r, S j => x :: set r j v
  end.

(** [shift_right(address, bytes, value)], a built-in of the compiler.  Its
    reference manual: it "shifts a bit into an array or structure", "bit 0
    of the lowest byte in RAM is treated as the LSB", and the call returns
    the bit shifted out.  A right shift moves every bit one place toward the
    LSB: bit 0 of the lowest byte is shifted out, and [value] enters at the
    top bit of the highest of the [bytes] bytes.  On the two bytes of [tap]:
    [tap[0]] leaves, [tap[i+1]] becomes [tap[i]], and [value] becomes
    [tap[15]].  (Lemmas [expected_PN9] and [period_511] below check this
    reading against the sequence the firmware announces, PN9.) *)
Definition shift_right (a : list bool) (bytes : nat) (value : bool)
  : list bool * bool :=
  match firstn (8 * bytes) a with
  | [] => (a, value)
  | out :: rest => (rest ++ value :: skipn (8 * bytes) a, out)
  end.

(** [read_eeprom(address)]: a byte of the data EEPROM; cells that were
    never programmed read as 0xFF. *)
Definition read_eeprom (eeprom : list Z) (address : nat) : Z :=
  int8 (nth address eeprom 255).

(** A [short] used where a byte is expected. *)
Definition int8_of_short (b : bool) : Z := if b then 1 else 0.

(** [write_eeprom(address, value)]: programs one byte of the data EEPROM. *)
Fixpoint write_eeprom (eeprom : list Z) (address : nat) (value : Z) : list Z :=
  match address, eeprom with
  | O, [] => [int8 value]
  | O, _ :: r => int8 value :: r
  | S a, [] => 255 :: write_eeprom [] a value
  | S a, x :: r => x :: write_eeprom r a value
  end.

End CCS.

(** ** Globals *)

(** Configuration globals: written by [main] and [setsetting], read by
    [countber]. *)
Record settings : Type := mkSettings {
  ClockNeg : bool;
  DataNeg : bool;
  TBI : Z;
  TotalBits : Z;
  ThresError : Z
}.

(** Globals written during a measurement, the lock indicator pin, and the
    number of bit periods consumed so far. *)
Record machine : Type := mkMachine {
  RenzokuError : Z;
  ErrorBits : Z;
  CountBits : Z;
  tap : list bool;
  SYNC_LED : bool;
  period : nat
}.

Definition set_RenzokuError (m : machine) (v : Z) : machine :=
  mkMachine v (ErrorBits m) (CountBits m) (tap m) (SYNC_LED m) (period m).

Definition set_ErrorBits (m : machine) (v : Z) : machine :=
  mkMachine (RenzokuError m) v (CountBits m) (tap m) (SYNC_LED m) (period m).

Definition set_CountBits (m : machine) (v : Z) : machine :=
  mkMachine (RenzokuError m) (ErrorBits m) v (tap m) (SYNC_LED m) (period m).

Definition set_tap (m : machine) (t : list bool) : machine :=
  mkMachine (RenzokuError m) (ErrorBits m) (CountBits m) t (SYNC_LED m) (period m).

Definition set_SYNC_LED (m : machine) (b : bool) : machine :=
  mkMachine (RenzokuError m) (ErrorBits m) (CountBits m) (tap m) b (period m).

(** One full clock cycle has gone by (both busy-wait loops have returned). *)
Definition next_period (m : machine) : machine :=
  mkMachine (RenzokuError m) (ErrorBits m) (CountBits m) (tap m) (SYNC_LED m)
            (S (period m)).

(** [#ROM 0x2100 = {0,0,2,10}] *)
Definition default_eeprom : list Z := [0; 0; 2; 10].

(** [short tap[16] = {1,...,1}]: the static initialiser, applied once at
    power-on. *)
Definition tap_init : list bool := repeat true 16.

(** [long const tbit[6]] *)
Definition tbit : list Z := [1000; 5000; 10000; 30000; 50000; 65535].

(** The machine at power-on.  Only [tap] has an initialiser; the counters are
    assigned by [countber] before they are read. *)
Definition power_on : machine := mkMachine 0 0 0 tap_init false 0.

(** ** The sequence generator *)

(** [shift_right(tap, 2, tap[7] ^ tap[11])] *)
Definition advance (t : list bool) : list bool :=
  fst (CCS.shift_right t 2 (xorb (CCS.get t 7) (CCS.get t 11))).

(** [tap[15]], the expected bit. *)
Definition expected (t : list bool) : bool := CCS.get t 15.

(** [tap[15] = ~tap[15]] *)
Definition flip_expected (t : list bool) : list bool :=
  CCS.set t 15 (negb (CCS.get t 15)).

(** The register after [n] advances. *)
Fixpoint advance_n (n : nat) (t : list bool) : list bool :=
  match n with
  | O => t
  | S k => advance_n k (advance t)
  end.

(** ** [countber] *)

(** [for (init; cond; incr) body], the initialisation done by the caller. *)
Fixpoint for_loop {S : Type} (cond : S -> bool) (body incr : S -> S)
         (fuel : nat) (s : S) : option S :=
  if cond s then
    match fuel with
    | O => None
    | Datatypes.S k => for_loop cond body incr k (incr (body s))
    end
  else Some s.

Section Measurement.

Variable cfg : settings.
Variable DATA_IN : nat -> bool.

(** [input(DATA_IN) ^ DataNeg] *)
Definition sample (m : machine) : bool :=
  xorb (DATA_IN (period m)) (DataNeg cfg).

(** [tap[15] == (input(DATA_IN) ^ DataNeg)] *)
Definition matches (m : machine) : bool :=
  Bool.eqb (CCS.get (tap m) 15) (sample m).

(** [RenzokuError < ThresError] *)
Definition sync_cond (m : machine) : bool :=
  RenzokuError m <? ThresError cfg.

(** Body of the sync loop: wait for the clock edge, compare, on a mismatch
    clear the counter and flip the expected bit, wait for the clock to
    return, advance the register. *)
Definition sync_body (m : machine) : machine :=
  let m1 :=
    if matches m then m
    else set_tap (set_RenzokuError m 0) (flip_expected (tap m)) in
  next_period (set_tap m1 (advance (tap m1))).

(** [RenzokuError++] *)
Definition sync_incr (m : machine) : machine :=
  set_RenzokuError m (CCS.int8 (RenzokuError m + 1)).

(** One iteration of the sync loop: body, then the increment. *)
Definition sync_iter (m : machine) : machine := sync_incr (sync_body m).

(** [CountBits < TotalBits] *)
Definition count_cond (m : machine) : bool :=
  CountBits m <? TotalBits cfg.

(** Body of the count loop: as the sync loop's, but a mismatch only
    increments [ErrorBits]. *)
Definition count_body (m : machine) : machine :=
  let m1 :=
    if matches m then m
    else set_ErrorBits m (CCS.int16 (ErrorBits m + 1)) in
  next_period (set_tap m1 (advance (tap m1))).

(** [CountBits++] *)
Definition count_incr (m : machine) : machine :=
  set_CountBits m (CCS.int16 (CountBits m + 1)).

(** One iteration of the count loop: body, then the increment. *)
Definition count_iter (m : machine) : machine := count_incr (count_body m).

(** From the call of [countber] up to the first test of the sync loop:
    the three counters are cleared, the lock indicator is switched off and
    the loop variable is initialised. *)
Definition countber_entry (m : machine) : machine :=
  let m := set_RenzokuError m 0 in
  let m := set_ErrorBits m 0 in
  let m := set_CountBits m 0 in
  let m := set_SYNC_LED m false in
  set_RenzokuError m 0.

(** The sync loop. *)
Definition sync_phase (fuel : nat) (m : machine) : option machine :=
  for_loop sync_cond sync_body sync_incr fuel m.

(** [output_high(SYNC_LED)], then the count loop. *)
Definition count_phase (fuel : nat) (m : machine) : option machine :=
  for_loop count_cond count_body count_incr fuel
           (set_CountBits (set_SYNC_LED m true) 0).

(** [countber]; [fuel] bounds the iterations of each of its two loops. *)
Definition countber (fuel : nat) (m : machine) : option machine :=
  match sync_phase fuel (countber_entry m) with
  | None => None
  | Some locked => count_phase fuel locked
  end.

End Measurement.

(** ** Settings: [main] and [setsetting] *)

(** [tbit[i]] for an [int] index.  The table has six entries; what a read
    past its end returns is not fixed by the source and is taken from
    [beyond]. *)
Definition tbit_read (beyond : Z -> Z) (i : Z) : Z :=
  if i <? 6 then nth (Z.to_nat i) tbit 0 else CCS.int16 (beyond i).

(** [main], from "Load settings from EEPROM" to the power-on key combination.
    [sw_sel] and [sw_trig] are the levels of the two keys at power-on. *)
Definition main_load (beyond : Z -> Z) (eeprom : list Z)
           (sw_sel sw_trig : bool) : settings :=
  let clockneg := CCS.short_of_int8 (CCS.read_eeprom eeprom 0) in
  let dataneg := CCS.short_of_int8 (CCS.read_eeprom eeprom 1) in
  let tbi := CCS.read_eeprom eeprom 2 in
  let totalbits := tbit_read beyond tbi in
  let threserror := CCS.read_eeprom eeprom 3 in
  let dataneg := if sw_trig then negb dataneg else dataneg in
  let clockneg := if sw_sel then negb clockneg else clockneg in
  mkSettings clockneg dataneg tbi totalbits threserror.

(** [setsetting]: next measurement length, wrapping from the last entry to
    the first. *)
Definition setsetting (beyond : Z -> Z) (c : settings) : settings :=
  let tbi := CCS.int8 (TBI c + 1) in
  let tbi := if tbi =? 6 then 0 else tbi in
  mkSettings (ClockNeg c) (DataNeg c) tbi (tbit_read beyond tbi) (ThresError c).

(** ** [show_ber] *)

(** A [float] expression, kept as written: the embedding does not evaluate
    floating-point arithmetic. *)
Inductive float_expr : Type :=
| FloatOfLong (n : Z)
| FloatConst100
| FloatDiv (a b : float_expr)
| FloatMul (a b : float_expr).

(** The three arguments of the [printf] of [show_ber]. *)
Record ber_screen : Type := mkScreen {
  screen_BER : float_expr;
  screen_E : Z;
  screen_C : Z
}.

(** [fCB = CountBits; fEB = ErrorBits; printf(..., (fEB / fCB) * 100.0,
    ErrorBits, CountBits)] *)
Definition show_ber_screen (m : machine) : ber_screen :=
  let fCB := FloatOfLong (CountBits m) in
  let fEB := FloatOfLong (ErrorBits m) in
  mkScreen (FloatMul (FloatDiv fEB fCB) FloatConst100) (ErrorBits m) (CountBits m).

(** [show_ber]: the screen, then another measurement when SW_TRIG is the key
    that was pressed. *)
Definition show_ber (cfg : settings) (DATA_IN : nat -> bool) (fuel : nat)
           (sw_trig : bool) (m : machine) : ber_screen * option machine :=
  (show_ber_screen m,
   if sw_trig then countber cfg DATA_IN fuel m else Some m).

(** Case 1 of the menu of [main]: [countber(); show_ber();]. *)
Definition measure_and_show (cfg : settings) (DATA_IN : nat -> bool)
           (fuel : nat) (sw_trig : bool) (m : machine)
  : option (ber_screen * option machine) :=
  match countber cfg DATA_IN fuel m with
  | None => None
  | Some m1 => Some (show_ber cfg DATA_IN fuel sw_trig m1)
  end.

(** ** Reference definitions, following the words of the specification *)

Module Spec.

(** "compute feedback bit from current cells, shift all cells one position
    toward higher index (cell[15] discarded), insert feedback bit at
    cell[0]", with "feedback = cell[7] XOR cell[11]". *)
Definition advance (t : list bool) : list bool :=
  xorb (nth 7 t false) (nth 11 t false) :: removelast t.

(** The abnormal conditions the specification names. *)
Inductive condition : Type :=
| DivisionByZero
| InvalidConfiguration.

(** "counted_bits == 0 when computing BER must fail with a DivisionByZero
    condition". *)
Definition ber (error_bits counted_bits : Z) : condition + float_expr :=
  if counted_bits =? 0 then inl DivisionByZero
  else inr (FloatMul (FloatDiv (FloatOfLong error_bits)
                               (FloatOfLong counted_bits)) FloatConst100).

(** "a length-index outside the fixed table's bounds must fail fast with an
    InvalidConfiguration condition at load time". *)
Definition load (index : Z) : condition + Z :=
  if (0 <=? index) && (index <? 6) then inr (nth (Z.to_nat index) tbit 0)
  else inl InvalidConfiguration.

End Spec.

(** A C function without a failing path, seen as a computation that may
    fail: it always completes. *)
Definition completes {A : Type} (a : A) : Spec.condition + A := inr a.

(** Number of bit periods [k .. k+n-1] in which the polarity-corrected data
    bit differs from the expected bit of a register that starts as [t] and is
    advanced once per period, never corrected. *)
Fixpoint mismatches (dataneg : bool) (DATA_IN : nat -> bool)
         (t : list bool) (k n : nat) : nat :=
  match n with
  | O => O
  | S n' =>
      ((if Bool.eqb (expected t) (xorb (DATA_IN k) dataneg) then 0 else 1)
       + mismatches dataneg DATA_IN (advance t) (S k) n')%nat
  end.

(** The data stream that a transmitter in step with the register [t] sends,
    seen through the data polarity [dataneg]. *)
Definition generator_stream (dataneg : bool) (t : list bool) (n : nat) : bool :=
  xorb (expected (advance_n n t)) dataneg.

(** [DataNeg = ~DataNeg], the power-on key combination of [main]. *)
Definition toggle_DataNeg (c : settings) : settings :=
  mkSettings (ClockNeg c) (negb (DataNeg c)) (TBI c) (TotalBits c) (ThresError c).

(** The state after [k] iterations of a loop. *)
Fixpoint iterate {S : Type} (k : nat) (iter : S -> S) (s : S) : S :=
  match k with
  | O => s
  | Datatypes.S j => iterate j iter (iter s)
  end.

(** The register after [n] sync iterations that all mismatch: each one
    flips the expected bit, then advances. *)
Definition jammed (n : nat) (t : list bool) : list bool :=
  iterate n (fun t => advance (flip_expected t)) t.

(** A data stream that differs from the expected bit in every period of a
    sync phase started on register [t] in period 0. *)
Definition jamming_stream (dataneg : bool) (t : list bool) (n : nat) : bool :=
  xorb (negb (expected (jammed n t))) dataneg.

(** ** Concrete settings and streams used in the examples *)

(** The settings a unit with the factory EEPROM contents starts with
    (no key held at power-on). *)
Definition factory_settings : settings :=
  main_load (fun _ => 0) default_eeprom false false.

(** Settings for the shortest measurement: 1000 bits, threshold 10. *)
Definition short_settings : settings :=
  main_load (fun _ => 0) [0; 0; 0; 10] false false.

(** Settings loaded from an EEPROM whose length index is 6, one past the
    table, on a part where the read past the table returns 0. *)
Definition index_six_settings : settings :=
  main_load (fun _ => 0) [0; 0; 6; 10] false false.

(** A data stream whose first bit differs from the expected bit of
    register [t] and whose later bits are those of a transmitter in step with
    the register the sync loop then holds. *)
Definition stream_with_first_bit_wrong (dataneg : bool) (t : list bool)
           (n : nat) : bool :=
  match n with
  | O => xorb (negb (expected t)) dataneg
  | S j => generator_stream dataneg (advance (flip_expected t)) j
  end.

(** Factory settings, with the lock threshold set to 1. *)
Definition threshold_one_settings : settings :=
  main_load (fun _ => 0) [0; 0; 2; 1] false false.

(** ** Saving the settings, and the menu of [main] *)

(** Case 3 of the menu of [main]: the four [write_eeprom] calls. *)
Definition save_settings (c : settings) (eeprom : list Z) : list Z :=
  let e := CCS.write_eeprom eeprom 0 (CCS.int8_of_short (ClockNeg c)) in
  let e := CCS.write_eeprom e 1 (CCS.int8_of_short (DataNeg c)) in
  let e := CCS.write_eeprom e 2 (TBI c) in
  CCS.write_eeprom e 3 (ThresError c).

(** The whole unit: the globals, the data EEPROM, and the result screens
    shown so far (latest first). *)
Record system : Type := mkSystem {
  sys_settings : settings;
  sys_machine : machine;
  sys_eeprom : list Z;
  sys_screens : list ber_screen
}.

(** The key levels one pass of the menu loop reads: SW_SEL and SW_TRIG at the
    [switch], and SW_TRIG when [show_ber] returns from its wait. *)
Record keys : Type := mkKeys {
  key_sel : bool;
  key_trig : bool;
  key_trig_at_result : bool
}.

(** One pass of the [while (TRUE)] loop of [main]: the [switch] on
    [input(SW_SEL) + input(SW_TRIG)*2]. *)
Definition main_pass (beyond : Z -> Z) (DATA_IN : nat -> bool) (fuel : nat)
           (k : keys) (s : system) : option system :=
  match key_sel k, key_trig k with
  | true, false =>
      match measure_and_show (sys_settings s) DATA_IN fuel
                             (key_trig_at_result k) (sys_machine s) with
      | Some (screen, Some m) =>
          Some (mkSystem (sys_settings s) m (sys_eeprom s)
                         (screen :: sys_screens s))
      | _ => None
      end
  | false, true =>
      Some (mkSystem (setsetting beyond (sys_settings s)) (sys_machine s)
                     (sys_eeprom s) (sys_screens s))
  | true, true =>
      Some (mkSystem (sys_settings s) (sys_machine s)
                     (save_settings (sys_settings s) (sys_eeprom s))
                     (sys_screens s))
  | false, false => Some s
  end.

(** The passes of the menu loop for a sequence of key readings. *)
Fixpoint main_passes (beyond : Z -> Z) (DATA_IN : nat -> bool) (fuel : nat)
         (ks : list keys) (s : system) : option system :=
  match ks with
  | [] => Some s
  | k :: rest =>
      match main_pass beyond DATA_IN fuel k s with
      | None => None
      | Some s1 => main_passes beyond DATA_IN fuel rest s1
      end
  end.

(** [main]: the settings are loaded, then the menu loop runs. *)
Definition main (beyond : Z -> Z) (DATA_IN : nat -> bool) (fuel : nat)
           (eeprom : list Z) (sw_sel sw_trig : bool) (ks : list keys)
  : option system :=
  main_passes beyond DATA_IN fuel ks
              (mkSystem (main_load beyond eeprom sw_sel sw_trig) power_on
                        eeprom []).

(** ** Registers in step *)

(** Two registers agree on cells 6 to 15, the cells from which all their
    future expected bits are computed. *)
Definition in_step (t u : list bool) : Prop := skipn 6 t = skipn 6 u.

(** The register [t] after the bits [x 0], ..., [x (k-1)] were taken in, one
    per advance: each is written to cell 15, then the register advances. *)
Fixpoint take_bits (x : nat -> bool) (k : nat) (t : list bool) : list bool :=
  match k with
  | O => t
  | S j => take_bits (fun i => x (S i)) j (advance (CCS.set t 15 (x O)))
  end.

(** The polarity-corrected data bit of the [i]-th period after period [p]. *)
Definition received (cfg : settings) (DATA_IN : nat -> bool) (p i : nat) : bool :=
  xorb (DATA_IN (p + i)%nat) (DataNeg cfg).

(** The register is jammed: cells 6 to 14 are 1 and the expected bit is 0. *)
Definition jam (t : list bool) : Prop := skipn 6 t = repeat true 9 ++ [false].

(** All bit strings of length [n]. *)
Fixpoint all_bits (n : nat) : list (list bool) :=
  match n with
  | O => [[]]
  | S k => map (cons false) (all_bits k) ++ map (cons true) (all_bits k)
  end.

(** A register whose cells 7 to 15 are [w]. *)
Definition register_of_window (w : list bool) : list bool :=
  repeat false 7 ++ w.

Definition same_register (t u : list bool) : bool :=
  if list_eq_dec bool_dec t u then true else false.

(** None of [cur], [advance cur], ... ([n] registers) is [s]. *)
Fixpoint no_return (n : nat) (s cur : list bool) : bool :=
  match n with
  | O => true
  | S k => negb (same_register cur s) && no_return k s (advance cur)
  end.

(** The register reached from window [w] comes back to itself after 511
    advances and not before. *)
Definition full_cycle (w : list bool) : bool :=
  let s := advance_n 7 (register_of_window w) in
  same_register (advance_n 511 s) s && no_return 510 s (advance s).

(** The settings are consistent: the index and the threshold are bytes, and
    [TotalBits] is what [tbit] gives at the index. *)
Definition consistent (beyond : Z -> Z) (c : settings) : Prop :=
  0 <= TBI c < 256 /\ 0 <= ThresError c < 256 /\
  TotalBits c = tbit_read beyond (TBI c).

(** The stream [x] with the bit of period [p] inverted. *)
Definition stream_with_error_at (p : nat) (x : nat -> bool) (n : nat) : bool :=
  if Nat.eqb n p then negb (x n) else x n.

(** Settings whose stored length index, 200, is far past the table. *)
Definition index_200_settings : settings :=
  main_load (fun _ => 0) [0; 0; 200; 10] false false.

(** What holds of the unit in every pass when the stored index was valid:
    the index is in the table, [TotalBits] is its entry, and every result
    screen shown divides by a table entry. *)
Definition sound_unit (beyond : Z -> Z) (s : system) : Prop :=
  0 <= TBI (sys_settings s) < 6 /\
  TotalBits (sys_settings s) = tbit_read beyond (TBI (sys_settings s)) /\
  Forall (fun scr => In (screen_C scr) tbit /\
                     0 <= screen_E scr <= screen_C scr)
         (sys_screens s).

(** ** Tactics *)

(** Names the sixteen cells of a register. *)
Ltac name_cells t H :=
  do 16 (destruct t as [|? t]; [discriminate H|]);
  destruct t; [clear H | discriminate H].

(** Case analysis on the cells a goal tests. *)
Ltac by_cells :=
  cbv;
  repeat match goal with
         | |- context [if ?b then _ else _] => is_var b; destruct b
         end;
  reflexivity.

(** * Properties *)

(** ** Loops *)

Section ForLoop.

Context {S : Type}.
Variables (cond : S -> bool) (body incr : S -> S).

Let iter (s : S) : S := incr (body s).

Lemma for_loop_more_fuel (fuel fuel' : nat) (s r : S) :
  for_loop cond body incr fuel s = Some r ->
  (fuel <= fuel')%nat ->
  for_loop cond body incr fuel' s = Some r.
Proof.
  revert fuel' s.
  induction fuel as [|fuel IH]; intros fuel' s Hrun Hle.
  - destruct fuel'; simpl in *; destruct (cond s); congruence.
  - destruct fuel' as [|fuel']; [lia|].
    simpl in *. destruct (cond s); [|exact Hrun].
    apply IH; [exact Hrun | lia].
Qed.

(** A loop that leaves after [k] iterations returns the [k]-th state as soon
    as the fuel allows [k] iterations. *)
Lemma for_loop_exit (k : nat) : forall (s : S) (fuel : nat),
  (forall j, (j < k)%nat -> cond (iterate j iter s) = true) ->
  cond (iterate k iter s) = false ->
  (k <= fuel)%nat ->
  for_loop cond body incr fuel s = Some (iterate k iter s).
Proof.
  induction k as [|k IH]; intros s fuel Hrun Hstop Hfuel.
  - simpl in Hstop. destruct fuel; simpl; rewrite Hstop; reflexivity.
  - destruct fuel as [|fuel]; [lia|].
    pose proof (Hrun 0%nat ltac:(lia)) as H0. simpl in H0.
    simpl. rewrite H0.
    apply IH.
    + intros j Hj. apply (Hrun (Datatypes.S j)). lia.
    + exact Hstop.
    + lia.
Qed.

(** While the condition holds in every state reached, the loop is still
    running when the fuel is spent. *)
Lemma for_loop_running (fuel : nat) : forall s : S,
  (forall j, (j <= fuel)%nat -> cond (iterate j iter s) = true) ->
  for_loop cond body incr fuel s = None.
Proof.
  induction fuel as [|fuel IH]; intros s Hrun.
  - pose proof (Hrun 0%nat ltac:(lia)) as H0. simpl in H0.
    simpl. rewrite H0. reflexivity.
  - pose proof (Hrun 0%nat ltac:(lia)) as H0. simpl in H0.
    simpl. rewrite H0.
    apply IH. intros j Hj. apply (Hrun (Datatypes.S j)). lia.
Qed.

(** A property kept by every iteration holds when the loop returns. *)
Lemma for_loop_invariant (P : S -> Prop) (fuel : nat) : forall s r : S,
  (forall x, P x -> cond x = true -> P (iter x)) ->
  P s ->
  for_loop cond body incr fuel s = Some r ->
  P r /\ cond r = false.
Proof.
  induction fuel as [|fuel IH]; intros s r Hkeep Hs Hrun; simpl in Hrun.
  - destruct (cond s) eqn:E; [discriminate|].
    injection Hrun as <-. auto.
  - destruct (cond s) eqn:E.
    + apply (IH (incr (body s))); auto. apply Hkeep; assumption.
    + injection Hrun as <-. auto.
Qed.

End ForLoop.

(** Two loops with the same test and the same iteration run alike. *)
Lemma for_loop_ext {S : Type} (cond cond' : S -> bool)
      (body body' incr incr' : S -> S) :
  (forall s, cond s = cond' s) ->
  (forall s, incr (body s) = incr' (body' s)) ->
  forall fuel s,
    for_loop cond body incr fuel s = for_loop cond' body' incr' fuel s.
Proof.
  intros Hc Hb. induction fuel as [|fuel IH]; intros s; simpl; rewrite Hc.
  - reflexivity.
  - rewrite Hb, IH. reflexivity.
Qed.

(** ** The sequence generator *)

Lemma advance_length (t : list bool) :
  length t = 16%nat -> length (advance t) = 16%nat.
Proof. intros H. name_cells t H. reflexivity. Qed.

Lemma flip_expected_length (t : list bool) :
  length (flip_expected t) = length t.
Proof.
  unfold flip_expected. generalize (negb (CCS.get t 15)) as v.
  generalize 15%nat as i.
  induction t as [|x t IH]; intros [|i] v; simpl; auto.
Qed.

Lemma advance_n_length (n : nat) : forall t : list bool,
  length t = 16%nat -> length (advance_n n t) = 16%nat.
Proof.
  induction n as [|n IH]; intros t H; simpl; [exact H|].
  apply IH, advance_length, H.
Qed.

Lemma advance_n_succ (n : nat) : forall t : list bool,
  advance_n (S n) t = advance (advance_n n t).
Proof.
  induction n as [|n IH]; intros t; [reflexivity|].
  change (advance_n (S (S n)) t) with (advance_n (S n) (advance t)).
  rewrite IH. reflexivity.
Qed.

Lemma advance_n_add (n k : nat) : forall t : list bool,
  advance_n (n + k) t = advance_n k (advance_n n t).
Proof. induction n as [|n IH]; intros t; simpl; auto. Qed.

(** The expected bits obey the recurrence of the PN9 sequence,
    [s(n+9) = s(n+4) xor s(n)]. *)
Lemma expected_PN9 (n : nat) (t : list bool) :
  length t = 16%nat ->
  expected (advance_n (n + 9) t)
  = xorb (expected (advance_n (n + 4) t)) (expected (advance_n n t)).
Proof.
  intros H. rewrite !advance_n_add.
  pose proof (advance_n_length n t H) as Hu.
  destruct (advance_n n t) as [|c u] eqn:E; [discriminate Hu|].
  clear E. set (v := c :: u) in *. clearbody v. clear c u.
  name_cells v Hu. by_cells.
Qed.

(** From the power-on seed the register enters, after sixteen advances, a
    cycle of length 511 and no shorter one. *)
Lemma period_511 :
  advance_n 511 (advance_n 16 tap_init) = advance_n 16 tap_init /\
  forallb (fun k =>
             negb (if list_eq_dec bool_dec
                        (advance_n k (advance_n 16 tap_init))
                        (advance_n 16 tap_init)
                   then true else false))
          (seq 1 510) = true.
Proof. split; vm_compute; reflexivity. Qed.

(** The step of the specification's words, for comparison, gives a sequence
    of period 28, which is not PN9. *)
Lemma spec_advance_period_28 :
  iterate 28 Spec.advance (iterate 16 Spec.advance tap_init)
  = iterate 16 Spec.advance tap_init.
Proof. vm_compute. reflexivity. Qed.

(** C1, as stated, fails on the power-on register: the code's advance is not
    the step "shift toward higher index, drop cell[15], insert at cell[0]". *)
Lemma advance_is_not_spec_advance : advance tap_init <> Spec.advance tap_init.
Proof. vm_compute. discriminate. Qed.

(** C1 (amended): advancing the register computes the feedback bit as
    cell[7] XOR cell[11] from the current cells, moves every cell one position
    toward LOWER index, so that cell[0] is discarded, and inserts the feedback
    bit at cell[15]; the register keeps its sixteen cells.  Both loops of
    [countber] advance the register this way once per iteration, the sync loop
    after its possible flip of cell[15]. *)
Theorem advance_shifts_toward_cell_0
        (cfg : settings) (DATA_IN : nat -> bool) (m : machine) (t : list bool) :
  length t = 16%nat ->
  (forall i, (i < 15)%nat -> CCS.get (advance t) i = CCS.get t (S i)) /\
  CCS.get (advance t) 15 = xorb (CCS.get t 7) (CCS.get t 11) /\
  length (advance t) = 16%nat /\
  tap (sync_body cfg DATA_IN m)
  = advance (if matches cfg DATA_IN m then tap m else flip_expected (tap m)) /\
  tap (count_body cfg DATA_IN m) = advance (tap m).
Proof.
  intros H. repeat split.
  - intros i Hi. name_cells t H.
    do 15 (destruct i as [|i]; [reflexivity|]). lia.
  - name_cells t H. reflexivity.
  - apply advance_length, H.
  - unfold sync_body. destruct (matches cfg DATA_IN m); reflexivity.
  - unfold count_body. destruct (matches cfg DATA_IN m); reflexivity.
Qed.

Lemma advance_shifts_toward_cell_0_witness :
  (forall i, (i < 15)%nat ->
             CCS.get (advance tap_init) i = CCS.get tap_init (S i)) /\
  CCS.get (advance tap_init) 15
  = xorb (CCS.get tap_init 7) (CCS.get tap_init 11) /\
  length (advance tap_init) = 16%nat /\
  tap (sync_body factory_settings (fun _ => false) power_on)
  = advance (if matches factory_settings (fun _ => false) power_on
             then tap power_on else flip_expected (tap power_on)) /\
  tap (count_body factory_settings (fun _ => false) power_on)
  = advance (tap power_on).
Proof.
  apply (advance_shifts_toward_cell_0
           factory_settings (fun _ => false) power_on tap_init).
  reflexivity.
Defined.

(** C2, as stated, fails on the power-on register: flipping cell[15] before
    the advance changes the state the advance produces. *)
Lemma flip_changes_next_state :
  advance (flip_expected tap_init) <> advance tap_init.
Proof. vm_compute. discriminate. Qed.

(** C2 (amended): flipping cell[15] and then advancing leaves the feedback bit
    of that advance unchanged (it is cell[7] XOR cell[11], inserted at
    cell[15]) but does change the resulting state: the flipped bit is kept, at
    cell[14], and every other cell is as without the flip.  The flipped bit
    stays in the register and reaches the feedback taps: the expected bit
    five advances later is the opposite of what it would have been. *)
Theorem flip_survives_advance (t : list bool) :
  length t = 16%nat ->
  CCS.get (advance (flip_expected t)) 15 = xorb (CCS.get t 7) (CCS.get t 11) /\
  CCS.get (advance (flip_expected t)) 14 = negb (CCS.get (advance t) 14) /\
  (forall i, (i < 14)%nat ->
             CCS.get (advance (flip_expected t)) i = CCS.get (advance t) i) /\
  expected (advance_n 5 (flip_expected t)) = negb (expected (advance_n 5 t)).
Proof.
  intros H. name_cells t H. repeat split.
  - intros i Hi. do 14 (destruct i as [|i]; [reflexivity|]). lia.
  - by_cells.
Qed.

Lemma flip_survives_advance_witness :
  CCS.get (advance (flip_expected tap_init)) 15
  = xorb (CCS.get tap_init 7) (CCS.get tap_init 11) /\
  CCS.get (advance (flip_expected tap_init)) 14
  = negb (CCS.get (advance tap_init) 14) /\
  (forall i, (i < 14)%nat ->
             CCS.get (advance (flip_expected tap_init)) i
             = CCS.get (advance tap_init) i) /\
  expected (advance_n 5 (flip_expected tap_init))
  = negb (expected (advance_n 5 tap_init)).
Proof. apply (flip_survives_advance tap_init). reflexivity. Defined.

(** ** The two loops of [countber] *)

Section Runs.

Variable cfg : settings.
Variable DATA_IN : nat -> bool.

Lemma matches_generator (m : machine) :
  DATA_IN (period m) = generator_stream (DataNeg cfg) (tap m) 0 ->
  matches cfg DATA_IN m = true.
Proof.
  unfold matches, sample, generator_stream, expected. simpl. intros ->.
  rewrite xorb_assoc, xorb_nilpotent, xorb_false_r. apply eqb_reflx.
Qed.

(** [n] sync iterations on a stream that matches the generator: the counter
    grows by [n], the register advances [n] times, nothing else changes. *)
Lemma sync_iter_matching (n : nat) : forall m : machine,
  0 <= RenzokuError m ->
  RenzokuError m + Z.of_nat n < 256 ->
  (forall j, (j < n)%nat ->
     DATA_IN (period m + j) = generator_stream (DataNeg cfg) (tap m) j) ->
  iterate n (sync_iter cfg DATA_IN) m
  = mkMachine (RenzokuError m + Z.of_nat n) (ErrorBits m) (CountBits m)
              (advance_n n (tap m)) (SYNC_LED m) (period m + n).
Proof.
  induction n as [|n IH]; intros m Hlo Hhi Hdata.
  - destruct m; simpl. f_equal; lia.
  - assert (Hm : matches cfg DATA_IN m = true).
    { apply matches_generator. rewrite <- (Nat.add_0_r (period m)).
      apply Hdata. lia. }
    change (iterate (S n) (sync_iter cfg DATA_IN) m)
      with (iterate n (sync_iter cfg DATA_IN) (sync_iter cfg DATA_IN m)).
    assert (Hstep : sync_iter cfg DATA_IN m
                    = mkMachine (RenzokuError m + 1) (ErrorBits m)
                                (CountBits m) (advance (tap m)) (SYNC_LED m)
                                (S (period m))).
    { unfold sync_iter, sync_incr, sync_body. rewrite Hm.
      destruct m; simpl in *. unfold set_RenzokuError; simpl.
      f_equal. unfold CCS.int8. apply Z.mod_small. lia. }
    rewrite Hstep, IH; simpl.
    + f_equal; lia.
    + lia.
    + lia.
    + intros j Hj. specialize (Hdata (S j) ltac:(lia)).
      rewrite Nat.add_succ_r in Hdata. exact Hdata.
Qed.

Lemma mismatches_le (n : nat) : forall (t : list bool) (k : nat),
  (mismatches (DataNeg cfg) DATA_IN t k n <= n)%nat.
Proof.
  induction n as [|n IH]; intros t k; simpl; [lia|].
  specialize (IH (advance t) (S k)).
  destruct (Bool.eqb _ _); lia.
Qed.

(** [n] count iterations: [CountBits] grows by [n], [ErrorBits] by the
    number of mismatching periods, the register advances [n] times and is
    never corrected. *)
Lemma count_iter_n (n : nat) : forall m : machine,
  0 <= ErrorBits m <= CountBits m ->
  CountBits m + Z.of_nat n < 65536 ->
  iterate n (count_iter cfg DATA_IN) m
  = mkMachine (RenzokuError m)
              (ErrorBits m
               + Z.of_nat (mismatches (DataNeg cfg) DATA_IN (tap m)
                                      (period m) n))
              (CountBits m + Z.of_nat n)
              (advance_n n (tap m)) (SYNC_LED m) (period m + n).
Proof.
  induction n as [|n IH]; intros m Herr Hcnt.
  - destruct m; simpl. f_equal; lia.
  - change (iterate (S n) (count_iter cfg DATA_IN) m)
      with (iterate n (count_iter cfg DATA_IN) (count_iter cfg DATA_IN m)).
    assert (Hstep : count_iter cfg DATA_IN m
                    = mkMachine (RenzokuError m)
                                (ErrorBits m
                                 + (if matches cfg DATA_IN m then 0 else 1))
                                (CountBits m + 1) (advance (tap m))
                                (SYNC_LED m) (S (period m))).
    { unfold count_iter, count_incr, count_body.
      destruct (matches cfg DATA_IN m); destruct m; simpl in *;
        unfold set_CountBits; simpl; unfold CCS.int16;
        rewrite !Z.mod_small by lia; f_equal; lia. }
    rewrite Hstep, IH; simpl.
    + fold (expected (tap m)).
      change (Bool.eqb (expected (tap m))
                       (xorb (DATA_IN (period m)) (DataNeg cfg)))
        with (matches cfg DATA_IN m).
      destruct (matches cfg DATA_IN m); f_equal; lia.
    + destruct (matches cfg DATA_IN m); lia.
    + lia.
Qed.

Lemma mismatches_generator (n : nat) : forall (t : list bool) (k : nat),
  (forall j, (j < n)%nat ->
     DATA_IN (k + j) = generator_stream (DataNeg cfg) t j) ->
  mismatches (DataNeg cfg) DATA_IN t k n = 0%nat.
Proof.
  induction n as [|n IH]; intros t k Hdata; simpl; [reflexivity|].
  pose proof (Hdata 0%nat ltac:(lia)) as H0.
  rewrite Nat.add_0_r in H0. rewrite H0.
  unfold generator_stream at 1. simpl.
  rewrite xorb_assoc, xorb_nilpotent, xorb_false_r, eqb_reflx.
  simpl. apply IH. intros j Hj.
  specialize (Hdata (S j) ltac:(lia)).
  rewrite Nat.add_succ_r in Hdata. exact Hdata.
Qed.

End Runs.

(** ** Lock acquisition *)

(** The state of the sync loop after [j] iterations on a matching stream. *)
Lemma sync_state_matching (cfg : settings) (DATA_IN : nat -> bool)
      (m : machine) (j : nat) :
  Z.of_nat j < 256 ->
  (forall i, (i < j)%nat ->
     DATA_IN (period m + i)%nat = generator_stream (DataNeg cfg) (tap m) i) ->
  iterate j (fun s => sync_incr (sync_body cfg DATA_IN s)) (countber_entry m)
  = mkMachine (Z.of_nat j) 0 0 (advance_n j (tap m)) false (period m + j)%nat.
Proof.
  intros Hj Hdata.
  change (fun s => sync_incr (sync_body cfg DATA_IN s))
    with (sync_iter cfg DATA_IN).
  rewrite sync_iter_matching; simpl; try lia; auto.
Qed.

(** C7: from the power-on all-ones register, on a stream whose every sampled
    bit equals the generator's expected bit, the sync loop leaves after
    exactly [ThresError] sampled bits (it is still running with any smaller
    bound), with the register advanced exactly [ThresError] times. *)
Theorem sync_locks_after_ThresError_matches
        (cfg : settings) (DATA_IN : nat -> bool) (m : machine) :
  tap m = tap_init ->
  0 <= ThresError cfg < 256 ->
  (forall j, (j < Z.to_nat (ThresError cfg))%nat ->
     DATA_IN (period m + j)%nat = generator_stream (DataNeg cfg) tap_init j) ->
  (forall fuel, (fuel < Z.to_nat (ThresError cfg))%nat ->
     sync_phase cfg DATA_IN fuel (countber_entry m) = None) /\
  (forall fuel, (Z.to_nat (ThresError cfg) <= fuel)%nat ->
     exists locked,
       sync_phase cfg DATA_IN fuel (countber_entry m) = Some locked /\
       RenzokuError locked = ThresError cfg /\
       period locked = (period m + Z.to_nat (ThresError cfg))%nat /\
       tap locked = advance_n (Z.to_nat (ThresError cfg)) tap_init).
Proof.
  intros Htap Hthres Hdata. rewrite <- Htap in Hdata.
  set (n := Z.to_nat (ThresError cfg)) in *.
  assert (Hstate : forall j, (j <= n)%nat ->
            iterate j (fun s => sync_incr (sync_body cfg DATA_IN s))
                    (countber_entry m)
            = mkMachine (Z.of_nat j) 0 0 (advance_n j (tap m)) false
                        (period m + j)%nat).
  { intros j Hj. apply sync_state_matching; [lia|].
    intros i Hi. apply Hdata. lia. }
  split.
  - intros fuel Hfuel. apply for_loop_running.
    intros j Hj. rewrite Hstate by lia.
    unfold sync_cond; simpl. apply Z.ltb_lt. lia.
  - intros fuel Hfuel.
    exists (mkMachine (Z.of_nat n) 0 0 (advance_n n (tap m)) false
                      (period m + n)%nat).
    repeat split; simpl; try lia.
    + rewrite <- (Hstate n) by lia.
      apply for_loop_exit.
      * intros j Hj. rewrite Hstate by lia.
        unfold sync_cond; simpl. apply Z.ltb_lt. lia.
      * rewrite Hstate by lia.
        unfold sync_cond; simpl. apply Z.ltb_ge. lia.
      * exact Hfuel.
    + rewrite Htap. reflexivity.
Qed.

Lemma sync_locks_after_ThresError_matches_witness :
  (forall fuel, (fuel < 10)%nat ->
     sync_phase factory_settings (generator_stream false tap_init) fuel
                (countber_entry power_on) = None) /\
  (forall fuel, (10 <= fuel)%nat ->
     exists locked,
       sync_phase factory_settings (generator_stream false tap_init) fuel
                  (countber_entry power_on) = Some locked /\
       RenzokuError locked = 10 /\
       period locked = 10%nat /\
       tap locked = advance_n 10 tap_init).
Proof.
  apply (sync_locks_after_ThresError_matches
           factory_settings (generator_stream false tap_init) power_on).
  - reflexivity.
  - change (0 <= 10 < 256). lia.
  - intros j _. reflexivity.
Defined.

(** ** The count phase *)

(** The sync loop does not touch [ErrorBits]. *)
Lemma sync_phase_keeps_ErrorBits (cfg : settings) (DATA_IN : nat -> bool)
      (fuel : nat) (m locked : machine) :
  sync_phase cfg DATA_IN fuel m = Some locked ->
  ErrorBits locked = ErrorBits m.
Proof.
  intros Hrun.
  apply (for_loop_invariant (sync_cond cfg) (sync_body cfg DATA_IN) sync_incr
                            (fun s => ErrorBits s = ErrorBits m)
                            fuel m locked); auto.
  intros x Hx _. rewrite <- Hx.
  unfold sync_incr, sync_body. destruct (matches cfg DATA_IN x); reflexivity.
Qed.

(** The state of the count loop after [j] iterations. *)
Lemma count_state (cfg : settings) (DATA_IN : nat -> bool)
      (locked : machine) (j : nat) :
  ErrorBits locked = 0 ->
  Z.of_nat j < 65536 ->
  iterate j (fun s => count_incr (count_body cfg DATA_IN s))
          (set_CountBits (set_SYNC_LED locked true) 0)
  = mkMachine (RenzokuError locked)
              (Z.of_nat (mismatches (DataNeg cfg) DATA_IN (tap locked)
                                    (period locked) j))
              (Z.of_nat j) (advance_n j (tap locked)) true
              (period locked + j)%nat.
Proof.
  intros Herr Hj.
  change (fun s => count_incr (count_body cfg DATA_IN s))
    with (count_iter cfg DATA_IN).
  rewrite count_iter_n; simpl; try lia.
  rewrite Herr. reflexivity.
Qed.

(** The count loop started on a locked machine. *)
Lemma count_phase_run (cfg : settings) (DATA_IN : nat -> bool)
      (locked : machine) :
  0 <= TotalBits cfg < 65536 ->
  ErrorBits locked = 0 ->
  (forall fuel, (fuel < Z.to_nat (TotalBits cfg))%nat ->
     count_phase cfg DATA_IN fuel locked = None) /\
  (forall fuel, (Z.to_nat (TotalBits cfg) <= fuel)%nat ->
     count_phase cfg DATA_IN fuel locked
     = Some (mkMachine (RenzokuError locked)
                       (Z.of_nat (mismatches (DataNeg cfg) DATA_IN
                                             (tap locked) (period locked)
                                             (Z.to_nat (TotalBits cfg))))
                       (TotalBits cfg)
                       (advance_n (Z.to_nat (TotalBits cfg)) (tap locked))
                       true
                       (period locked + Z.to_nat (TotalBits cfg))%nat)).
Proof.
  intros Htot Herr. set (n := Z.to_nat (TotalBits cfg)).
  assert (Hcond : forall j, (j <= n)%nat ->
            count_cond cfg
              (iterate j (fun s => count_incr (count_body cfg DATA_IN s))
                       (set_CountBits (set_SYNC_LED locked true) 0))
            = (Z.of_nat j <? TotalBits cfg)).
  { intros j Hj. rewrite count_state by (auto; lia). reflexivity. }
  split; intros fuel Hfuel; unfold count_phase.
  - apply for_loop_running. intros j Hj.
    rewrite Hcond by lia. apply Z.ltb_lt. lia.
  - match goal with
    | |- _ = Some ?x =>
        replace x
          with (iterate n (fun s => count_incr (count_body cfg DATA_IN s))
                        (set_CountBits (set_SYNC_LED locked true) 0))
    end.
    2:{ rewrite count_state by (auto; lia). f_equal. lia. }
    apply for_loop_exit.
    + intros j Hj. rewrite Hcond by lia. apply Z.ltb_lt. lia.
    + rewrite Hcond by lia. apply Z.ltb_ge. lia.
    + exact Hfuel.
Qed.

(** C5: once the sync phase has locked, the count loop runs exactly
    [TotalBits] iterations, neither fewer nor more: at the end [CountBits] is
    [TotalBits], [ErrorBits] is the number of those periods whose
    polarity-corrected data bit differed from the expected bit, and the
    register is the locked one advanced [TotalBits] times, never corrected.
    On a stream that matches the generator, [ErrorBits] is 0. *)
Theorem count_phase_counts_exactly
        (cfg : settings) (DATA_IN : nat -> bool) (fuel0 : nat)
        (m locked : machine) :
  0 <= TotalBits cfg < 65536 ->
  sync_phase cfg DATA_IN fuel0 (countber_entry m) = Some locked ->
  (forall fuel, (fuel < Z.to_nat (TotalBits cfg))%nat ->
     countber cfg DATA_IN fuel m = None) /\
  (forall fuel, (fuel0 <= fuel)%nat ->
                (Z.to_nat (TotalBits cfg) <= fuel)%nat ->
     exists r,
       countber cfg DATA_IN fuel m = Some r /\
       CountBits r = TotalBits cfg /\
       ErrorBits r
       = Z.of_nat (mismatches (DataNeg cfg) DATA_IN (tap locked)
                              (period locked) (Z.to_nat (TotalBits cfg))) /\
       tap r = advance_n (Z.to_nat (TotalBits cfg)) (tap locked) /\
       period r = (period locked + Z.to_nat (TotalBits cfg))%nat /\
       ((forall j, (j < Z.to_nat (TotalBits cfg))%nat ->
           DATA_IN (period locked + j)%nat
           = generator_stream (DataNeg cfg) (tap locked) j) ->
        ErrorBits r = 0)).
Proof.
  intros Htot Hsync.
  assert (Herr : ErrorBits locked = 0).
  { apply sync_phase_keeps_ErrorBits in Hsync. exact Hsync. }
  destruct (count_phase_run cfg DATA_IN locked Htot Herr) as [Hshort Hlong].
  split.
  - intros fuel Hfuel. unfold countber.
    destruct (sync_phase cfg DATA_IN fuel (countber_entry m)) as [l|] eqn:E;
      [|reflexivity].
    assert (l = locked) as ->.
    { apply (for_loop_more_fuel _ _ _ _ (Nat.max fuel fuel0)) in E; [|lia].
      apply (for_loop_more_fuel _ _ _ _ (Nat.max fuel fuel0)) in Hsync; [|lia].
      unfold sync_phase in Hsync. congruence. }
    apply Hshort, Hfuel.
  - intros fuel Hf0 Hfn. eexists. unfold countber.
    unfold sync_phase in *.
    rewrite (for_loop_more_fuel _ _ _ _ fuel _ _ Hsync Hf0).
    split; [apply Hlong, Hfn|]. simpl.
    repeat split.
    intros Hdata. rewrite mismatches_generator; auto.
Qed.

Lemma count_phase_counts_exactly_witness :
  exists r,
    countber short_settings (generator_stream false tap_init) 1000 power_on
    = Some r /\
    CountBits r = 1000 /\ ErrorBits r = 0.
Proof.
  destruct (count_phase_counts_exactly
              short_settings (generator_stream false tap_init) 10 power_on
              (mkMachine 10 0 0 (advance_n 10 tap_init) false 10))
    as [_ Hrun].
  - change (0 <= 1000 < 65536). lia.
  - vm_compute. reflexivity.
  - destruct (Hrun 1000%nat) as (r & Hr & Hcount & _ & _ & _ & Hzero).
    + lia.
    + change (Z.to_nat (TotalBits short_settings)) with 1000%nat. lia.
    + exists r. split; [exact Hr | split; [exact Hcount |]].
      apply Hzero. intros j _. cbn [period tap DataNeg].
      unfold generator_stream. rewrite advance_n_add. reflexivity.
Defined.

(** ** Polarity *)

Lemma matches_relabeled (cfg : settings) (DATA_IN : nat -> bool) (m : machine) :
  matches (toggle_DataNeg cfg) (fun n => negb (DATA_IN n)) m
  = matches cfg DATA_IN m.
Proof.
  unfold matches, sample. simpl.
  destruct (DATA_IN (period m)), (DataNeg cfg); reflexivity.
Qed.

(** C8: a measurement with the data-polarity flag toggled and every data bit
    inverted is the same computation: for every stream, every starting state
    and every bound on the iterations, it ends (or is still running) exactly
    as the original one, with the same [ErrorBits], [CountBits], register and
    number of bits consumed. *)
Theorem polarity_is_a_relabeling
        (cfg : settings) (DATA_IN : nat -> bool) (fuel : nat) (m : machine) :
  countber (toggle_DataNeg cfg) (fun n => negb (DATA_IN n)) fuel m
  = countber cfg DATA_IN fuel m.
Proof.
  unfold countber, sync_phase, count_phase.
  rewrite (for_loop_ext (sync_cond (toggle_DataNeg cfg)) (sync_cond cfg)
             (sync_body (toggle_DataNeg cfg) (fun n => negb (DATA_IN n)))
             (sync_body cfg DATA_IN) sync_incr sync_incr).
  - destruct (for_loop (sync_cond cfg) (sync_body cfg DATA_IN) sync_incr fuel
                       (countber_entry m)) as [locked|]; [|reflexivity].
    apply for_loop_ext.
    + reflexivity.
    + intros s. unfold count_body. rewrite matches_relabeled. reflexivity.
  - reflexivity.
  - intros s. unfold sync_body. rewrite matches_relabeled. reflexivity.
Qed.

(** ** Seeding of the register *)

(** C3, as stated, fails on the second measurement of a unit with factory
    settings whose data input stays low: the first measurement ends with a
    register that is not all ones, and the second one starts its sync phase
    on that register. *)
Lemma second_measurement_is_not_reseeded :
  exists m1,
    countber factory_settings (fun _ => false)
             (Z.to_nat (TotalBits factory_settings)) power_on = Some m1 /\
    tap (countber_entry m1) <> tap_init.
Proof.
  eexists. split.
  - vm_compute. reflexivity.
  - vm_compute. discriminate.
Qed.

(** C3 (amended): the register is seeded with all ones once, by its static
    initialiser at power-on.  [countber] does not seed it: up to the first
    sync-phase comparison it clears RenzokuError, ErrorBits and CountBits and
    switches the lock indicator off, and leaves the register as the caller
    (power-on, or the previous measurement, which [show_ber] can chain
    directly) left it. *)
Theorem countber_keeps_the_register
        (cfg : settings) (DATA_IN : nat -> bool) (fuel : nat) (m : machine) :
  tap power_on = tap_init /\
  tap (countber_entry m) = tap m /\
  RenzokuError (countber_entry m) = 0 /\
  ErrorBits (countber_entry m) = 0 /\
  CountBits (countber_entry m) = 0 /\
  SYNC_LED (countber_entry m) = false /\
  snd (show_ber cfg DATA_IN fuel true m) = countber cfg DATA_IN fuel m.
Proof. repeat split. Qed.

(** ** The consecutive-match counter after a mismatch *)

(** The sync loop entered with the counter at [ThresError - n], on [n]
    matching bits. *)
Lemma sync_phase_matching (cfg : settings) (DATA_IN : nat -> bool)
      (n fuel : nat) (m : machine) :
  0 <= RenzokuError m ->
  RenzokuError m + Z.of_nat n = ThresError cfg ->
  ThresError cfg < 256 ->
  (forall j, (j < n)%nat ->
     DATA_IN (period m + j)%nat = generator_stream (DataNeg cfg) (tap m) j) ->
  (n <= fuel)%nat ->
  sync_phase cfg DATA_IN fuel m
  = Some (mkMachine (ThresError cfg) (ErrorBits m) (CountBits m)
                    (advance_n n (tap m)) (SYNC_LED m) (period m + n)%nat).
Proof.
  intros Hlo Hsum Hhi Hdata Hfuel.
  assert (Hstate : forall j, (j <= n)%nat ->
            iterate j (fun s => sync_incr (sync_body cfg DATA_IN s)) m
            = mkMachine (RenzokuError m + Z.of_nat j) (ErrorBits m)
                        (CountBits m) (advance_n j (tap m)) (SYNC_LED m)
                        (period m + j)%nat).
  { intros j Hj.
    change (fun s => sync_incr (sync_body cfg DATA_IN s))
      with (sync_iter cfg DATA_IN).
    apply sync_iter_matching; try lia.
    intros i Hi. apply Hdata. lia. }
  rewrite <- Hsum at 1. rewrite <- (Hstate n) by lia.
  apply for_loop_exit.
  - intros j Hj. rewrite Hstate by lia.
    unfold sync_cond; simpl. apply Z.ltb_lt. lia.
  - rewrite Hstate by lia.
    unfold sync_cond; simpl. apply Z.ltb_ge. lia.
  - exact Hfuel.
Qed.

(** One sync iteration on a mismatching bit. *)
Lemma sync_iter_mismatch (cfg : settings) (DATA_IN : nat -> bool) (m : machine) :
  matches cfg DATA_IN m = false ->
  sync_iter cfg DATA_IN m
  = mkMachine 1 (ErrorBits m) (CountBits m) (advance (flip_expected (tap m)))
              (SYNC_LED m) (S (period m)).
Proof.
  intros Hm. unfold sync_iter, sync_incr, sync_body. rewrite Hm. reflexivity.
Qed.

(** C4 (what the code does): on a mismatching bit the body of the sync loop
    clears the consecutive-match counter, but the loop's own increment then
    runs, so the counter is 1, not 0, when the iteration ends; from that
    point [ThresError - 1] matching bits are enough for the loop to leave,
    that is, to declare lock. *)
Theorem mismatch_leaves_counter_at_one
        (cfg : settings) (DATA_IN : nat -> bool) (m : machine) :
  matches cfg DATA_IN m = false ->
  RenzokuError (sync_body cfg DATA_IN m) = 0 /\
  RenzokuError (sync_iter cfg DATA_IN m) = 1 /\
  (1 <= ThresError cfg < 256 ->
   (forall j, (j < Z.to_nat (ThresError cfg) - 1)%nat ->
      DATA_IN (S (period m) + j)%nat
      = generator_stream (DataNeg cfg) (advance (flip_expected (tap m))) j) ->
   exists locked,
     sync_phase cfg DATA_IN (Z.to_nat (ThresError cfg) - 1)
                (sync_iter cfg DATA_IN m) = Some locked /\
     RenzokuError locked = ThresError cfg /\
     period locked = (period m + Z.to_nat (ThresError cfg))%nat).
Proof.
  intros Hm. split; [|split].
  - unfold sync_body. rewrite Hm. reflexivity.
  - rewrite sync_iter_mismatch by exact Hm. reflexivity.
  - intros Hthres Hdata. rewrite sync_iter_mismatch by exact Hm.
    eexists. split.
    + apply (sync_phase_matching cfg DATA_IN (Z.to_nat (ThresError cfg) - 1)).
      * cbn [RenzokuError]. lia.
      * cbn [RenzokuError]. lia.
      * lia.
      * exact Hdata.
      * lia.
    + cbn [RenzokuError period]. split; [reflexivity | lia].
Qed.

Lemma mismatch_leaves_counter_at_one_witness :
  RenzokuError (sync_iter factory_settings
                          (stream_with_first_bit_wrong false tap_init)
                          (countber_entry power_on)) = 1 /\
  exists locked,
    sync_phase factory_settings (stream_with_first_bit_wrong false tap_init)
               9 (sync_iter factory_settings
                            (stream_with_first_bit_wrong false tap_init)
                            (countber_entry power_on)) = Some locked /\
    RenzokuError locked = 10 /\ period locked = 10%nat.
Proof.
  destruct (mismatch_leaves_counter_at_one
              factory_settings (stream_with_first_bit_wrong false tap_init)
              (countber_entry power_on)) as (_ & Hone & Hlock).
  - reflexivity.
  - split; [exact Hone|].
    apply Hlock.
    + change (1 <= 10 < 256). lia.
    + intros j _. reflexivity.
Defined.

(** C6 (what the code does at threshold 1): because a mismatching iteration
    ends with the counter at 1, with [ThresError = 1] the sync loop leaves
    after a single sampled bit even if that bit mismatches, and [countber]
    goes on to the count phase. *)
Theorem threshold_one_locks_on_a_mismatch
        (cfg : settings) (DATA_IN : nat -> bool) (fuel : nat) (m : machine) :
  ThresError cfg = 1 ->
  matches cfg DATA_IN (countber_entry m) = false ->
  (1 <= fuel)%nat ->
  exists locked,
    sync_phase cfg DATA_IN fuel (countber_entry m) = Some locked /\
    period locked = S (period m) /\
    countber cfg DATA_IN fuel m = count_phase cfg DATA_IN fuel locked.
Proof.
  intros Hthres Hm Hfuel.
  exists (sync_iter cfg DATA_IN (countber_entry m)).
  assert (Hrun : sync_phase cfg DATA_IN fuel (countber_entry m)
                 = Some (sync_iter cfg DATA_IN (countber_entry m))).
  { destruct fuel as [|fuel]; [lia|].
    unfold sync_phase. simpl. unfold sync_cond at 1. simpl. rewrite Hthres.
    simpl.
    fold (sync_iter cfg DATA_IN (countber_entry m)).
    rewrite sync_iter_mismatch by exact Hm.
    destruct fuel; simpl; unfold sync_cond; simpl; rewrite Hthres;
      reflexivity. }
  split; [exact Hrun|]. split.
  - rewrite sync_iter_mismatch by exact Hm. reflexivity.
  - unfold countber. rewrite Hrun. reflexivity.
Qed.

Lemma threshold_one_locks_on_a_mismatch_witness :
  exists locked,
    sync_phase threshold_one_settings (fun _ => false) 1
               (countber_entry power_on) = Some locked /\
    period locked = 1%nat /\
    countber threshold_one_settings (fun _ => false) 1 power_on
    = count_phase threshold_one_settings (fun _ => false) 1 locked.
Proof.
  apply (threshold_one_locks_on_a_mismatch
           threshold_one_settings (fun _ => false) 1 power_on).
  - reflexivity.
  - reflexivity.
  - lia.
Defined.

(** ** A stream that never matches *)

Lemma iterate_succ {S : Type} (f : S -> S) (j : nat) : forall s : S,
  iterate (Datatypes.S j) f s = f (iterate j f s).
Proof.
  induction j as [|j IH]; intros s; [reflexivity|].
  change (iterate (Datatypes.S (Datatypes.S j)) f s)
    with (iterate (Datatypes.S j) f (f s)).
  rewrite IH. reflexivity.
Qed.

(** With a threshold of at least 2, a sync loop whose every sampled bit
    mismatches is still running after any number of iterations. *)
Lemma sync_never_locks (cfg : settings) (DATA_IN : nat -> bool) (m : machine) :
  2 <= ThresError cfg ->
  (forall j, matches cfg DATA_IN
                     (iterate j (sync_iter cfg DATA_IN) (countber_entry m))
             = false) ->
  forall fuel, sync_phase cfg DATA_IN fuel (countber_entry m) = None.
Proof.
  intros Hthres Hmis fuel. apply for_loop_running. intros j _.
  change (fun s => sync_incr (sync_body cfg DATA_IN s))
    with (sync_iter cfg DATA_IN).
  destruct j as [|j].
  - unfold sync_cond. simpl. apply Z.ltb_lt. lia.
  - rewrite iterate_succ, sync_iter_mismatch by apply Hmis.
    unfold sync_cond. simpl. apply Z.ltb_lt. lia.
Qed.

(** The jamming stream mismatches in every period. *)
Lemma jamming_stream_never_matches (cfg : settings) (m : machine) (j : nat) :
  period m = 0%nat ->
  let DATA_IN := jamming_stream (DataNeg cfg) (tap m) in
  let s := iterate j (sync_iter cfg DATA_IN) (countber_entry m) in
  tap s = jammed j (tap m) /\ period s = j /\ matches cfg DATA_IN s = false.
Proof.
  intros Hp DATA_IN.
  assert (Hmis : forall s k, tap s = jammed k (tap m) -> period s = k ->
                             matches cfg DATA_IN s = false).
  { intros s k Ht Hk. unfold matches, sample, DATA_IN, jamming_stream.
    rewrite Hk, <- Ht. unfold expected.
    destruct (CCS.get (tap s) 15), (DataNeg cfg); reflexivity. }
  induction j as [|j IH]; cbv zeta.
  - simpl. repeat split; auto. apply (Hmis _ 0%nat); auto.
  - cbv zeta in IH. destruct IH as (Ht & Hk & Hm).
    rewrite iterate_succ, sync_iter_mismatch by exact Hm.
    cbn [tap period].
    assert (Ht' : advance (flip_expected
                    (tap (iterate j (sync_iter cfg DATA_IN)
                                  (countber_entry m))))
                  = jammed (S j) (tap m)).
    { rewrite Ht. unfold jammed. rewrite iterate_succ. reflexivity. }
    repeat split; auto.
    apply (Hmis _ (S j)); cbn [tap period]; auto.
Qed.

(** On the jamming stream, and with a threshold of at least 2, [countber]
    never leaves its sync loop. *)
Lemma jammed_measurement_never_locks (cfg : settings) (m : machine) :
  2 <= ThresError cfg ->
  period m = 0%nat ->
  forall fuel,
    countber cfg (jamming_stream (DataNeg cfg) (tap m)) fuel m = None.
Proof.
  intros Hthres Hp fuel. unfold countber.
  rewrite sync_never_locks; auto.
  intros j. apply (jamming_stream_never_matches cfg m j Hp).
Qed.

(** ** The ratio shown by [show_ber] *)

(** A completed measurement has counted [TotalBits] bits. *)
Lemma countber_CountBits (cfg : settings) (DATA_IN : nat -> bool)
      (fuel : nat) (m r : machine) :
  0 <= TotalBits cfg < 65536 ->
  countber cfg DATA_IN fuel m = Some r ->
  CountBits r = TotalBits cfg.
Proof.
  intros Htot Hrun. unfold countber in Hrun.
  destruct (sync_phase cfg DATA_IN fuel (countber_entry m)) as [locked|] eqn:E;
    [|discriminate].
  assert (Herr : ErrorBits locked = 0).
  { apply sync_phase_keeps_ErrorBits in E. exact E. }
  destruct (count_phase_run cfg DATA_IN locked Htot Herr) as [Hshort Hlong].
  destruct (Nat.lt_ge_cases fuel (Z.to_nat (TotalBits cfg))) as [Hlt|Hge].
  - rewrite Hshort in Hrun by exact Hlt. discriminate.
  - rewrite Hlong in Hrun by exact Hge. injection Hrun as <-. reflexivity.
Qed.

(** C9, as stated, fails after a measurement that counted no bit: [show_ber]
    puts the quotient by zero on the screen, where the claim asks for a
    DivisionByZero failure. *)
Lemma show_ber_divides_by_zero :
  exists r,
    countber index_six_settings (fun _ => false) 18 power_on = Some r /\
    CountBits r = 0 /\
    Spec.ber (ErrorBits r) (CountBits r) = inl Spec.DivisionByZero /\
    completes (screen_BER (show_ber_screen r))
    = inr (FloatMul (FloatDiv (FloatOfLong 0) (FloatOfLong 0)) FloatConst100).
Proof.
  exists (mkMachine 10 0 0 (repeat false 16) true 18).
  split; [vm_compute; reflexivity|].
  split; [reflexivity|]. split; reflexivity.
Qed.

(** C9 (amended): [show_ber] has no guard and no failure condition: it
    converts both counters and divides, whatever [CountBits] is.  After a
    completed measurement the divisor it uses is [TotalBits]; so when
    [TotalBits] is one of the six table entries the divisor is not 0, and
    the value shown is the one a guarded computation gives. *)
Theorem show_ber_divides_unguarded
        (cfg : settings) (DATA_IN : nat -> bool) (fuel : nat) (m r : machine) :
  0 <= TotalBits cfg < 65536 ->
  countber cfg DATA_IN fuel m = Some r ->
  show_ber_screen r
  = mkScreen (FloatMul (FloatDiv (FloatOfLong (ErrorBits r))
                                 (FloatOfLong (TotalBits cfg))) FloatConst100)
             (ErrorBits r) (TotalBits cfg) /\
  (In (TotalBits cfg) tbit ->
   Spec.ber (ErrorBits r) (CountBits r)
   = completes (screen_BER (show_ber_screen r))).
Proof.
  intros Htot Hrun.
  pose proof (countber_CountBits cfg DATA_IN fuel m r Htot Hrun) as Hc.
  split.
  - unfold show_ber_screen. rewrite Hc. reflexivity.
  - intros Hin. unfold Spec.ber, completes, show_ber_screen. rewrite Hc.
    cbn [screen_BER].
    assert (Hnz : (TotalBits cfg =? 0) = false).
    { apply Z.eqb_neq. simpl in Hin.
      repeat (destruct Hin as [<-|Hin]; [lia|]). contradiction. }
    rewrite Hnz. reflexivity.
Qed.

Lemma show_ber_divides_unguarded_witness :
  show_ber_screen (mkMachine 10 0 1000 (repeat false 16) true 1018)
  = mkScreen (FloatMul (FloatDiv (FloatOfLong 0) (FloatOfLong 1000))
                       FloatConst100) 0 1000 /\
  (In 1000 tbit ->
   Spec.ber 0 1000
   = completes (screen_BER
                  (show_ber_screen
                     (mkMachine 10 0 1000 (repeat false 16) true 1018)))).
Proof.
  apply (show_ber_divides_unguarded
           short_settings (fun _ => false) 1000 power_on
           (mkMachine 10 0 1000 (repeat false 16) true 1018)).
  - change (0 <= 1000 < 65536). lia.
  - vm_compute. reflexivity.
Defined.

(** ** Loading the measurement length *)

(** C10, as stated, fails on an EEPROM whose length index is 6: [main] loads
    it without any failure and uses it at once to read [tbit]. *)
Lemma out_of_table_index_is_loaded :
  Spec.load (CCS.read_eeprom [0; 0; 6; 10] 2) = inl Spec.InvalidConfiguration /\
  completes (main_load (fun _ => 0) [0; 0; 6; 10] false false)
  = inr (mkSettings false false 6 0 10) /\
  completes (main_load (fun _ => 0) [0; 0; 6; 10] false false)
  <> inl Spec.InvalidConfiguration.
Proof.
  split; [reflexivity|]. split; [reflexivity|]. discriminate.
Qed.

(** C10 (amended): loading the configuration validates nothing and never
    fails.  The length index is the EEPROM byte at address 2 as it is, any
    value from 0 to 255, and it is used at once to read [tbit].  For an
    index up to 5 [TotalBits] is the table entry; for a larger index the read
    goes past the end of the table and [TotalBits] is whatever that read
    returns. *)
Theorem main_load_does_not_validate
        (beyond : Z -> Z) (eeprom : list Z) (sw_sel sw_trig : bool) :
  TBI (main_load beyond eeprom sw_sel sw_trig) = CCS.read_eeprom eeprom 2 /\
  0 <= TBI (main_load beyond eeprom sw_sel sw_trig) < 256 /\
  TotalBits (main_load beyond eeprom sw_sel sw_trig)
  = tbit_read beyond (CCS.read_eeprom eeprom 2) /\
  ((CCS.read_eeprom eeprom 2 <? 6) = true /\
   Spec.load (CCS.read_eeprom eeprom 2)
   = inr (TotalBits (main_load beyond eeprom sw_sel sw_trig)) /\
   In (TotalBits (main_load beyond eeprom sw_sel sw_trig)) tbit
   \/
   (CCS.read_eeprom eeprom 2 <? 6) = false /\
   Spec.load (CCS.read_eeprom eeprom 2) = inl Spec.InvalidConfiguration /\
   TotalBits (main_load beyond eeprom sw_sel sw_trig)
   = CCS.int16 (beyond (CCS.read_eeprom eeprom 2))).
Proof.
  assert (Hrange : 0 <= CCS.read_eeprom eeprom 2 < 256).
  { unfold CCS.read_eeprom, CCS.int8. apply Z.mod_pos_bound. lia. }
  cbn [main_load TBI TotalBits].
  split; [reflexivity|]. split; [exact Hrange|]. split; [reflexivity|].
  unfold tbit_read, Spec.load.
  destruct (CCS.read_eeprom eeprom 2 <? 6) eqn:E.
  - left. apply Z.ltb_lt in E.
    assert (H0 : (0 <=? CCS.read_eeprom eeprom 2) = true)
      by (apply Z.leb_le; lia).
    rewrite H0. cbn [andb]. repeat split.
    apply nth_In. simpl. lia.
  - right. rewrite andb_false_r. repeat split.
Qed.

(** * Further properties of the firmware *)

(** ** The sequence of expected bits *)

Lemma same_register_eq (t u : list bool) :
  same_register t u = true -> t = u.
Proof.
  unfold same_register. destruct (list_eq_dec bool_dec t u); congruence.
Qed.

Lemma same_register_neq (t u : list bool) :
  same_register t u = false -> t <> u.
Proof.
  unfold same_register. destruct (list_eq_dec bool_dec t u); congruence.
Qed.

Lemma no_return_neq (n : nat) : forall (s cur : list bool),
  no_return n s cur = true ->
  forall k, (k < n)%nat -> advance_n k cur <> s.
Proof.
  induction n as [|n IH]; intros s cur H k Hk; [lia|].
  simpl in H. apply andb_prop in H. destruct H as [Hne Hrest].
  destruct k as [|k]; simpl.
  - apply same_register_neq. destruct (same_register cur s); [discriminate|].
    reflexivity.
  - apply IH; [exact Hrest | lia].
Qed.

Lemma all_bits_complete (n : nat) : forall w : list bool,
  length w = n -> In w (all_bits n).
Proof.
  induction n as [|n IH]; intros [|b w] H; simpl in H; try discriminate.
  - left. reflexivity.
  - simpl. apply in_or_app.
    destruct b; [right | left]; apply in_map; apply IH; lia.
Qed.

(** Every window of nine cells is all zero or lies on the cycle of
    length 511. *)
Lemma all_windows_cycle :
  forallb (fun w => same_register w (repeat false 9) || full_cycle w)
          (all_bits 9) = true.
Proof. vm_compute. reflexivity. Qed.

(** After seven advances the register is a function of cells 7 to 15. *)
Lemma advance_7_window (t : list bool) :
  length t = 16%nat ->
  advance_n 7 t = advance_n 7 (register_of_window (skipn 7 t)).
Proof. intros H. name_cells t H. reflexivity. Qed.

Lemma full_cycle_returns (w : list bool) :
  full_cycle w = true ->
  advance_n 511 (advance_n 7 (register_of_window w))
  = advance_n 7 (register_of_window w) /\
  (forall k, (0 < k < 511)%nat ->
     advance_n k (advance_n 7 (register_of_window w))
     <> advance_n 7 (register_of_window w)).
Proof.
  unfold full_cycle. generalize (advance_n 7 (register_of_window w)) as s.
  intros s Hc. apply andb_prop in Hc. destruct Hc as [Hback Hnot]. split.
  - apply same_register_eq, Hback.
  - intros k Hk. destruct k as [|k]; [lia|]. simpl.
    apply (no_return_neq 510 _ _ Hnot). lia.
Qed.

Lemma window_cases (w : list bool) :
  length w = 9%nat -> w = repeat false 9 \/ full_cycle w = true.
Proof.
  intros Hw. pose proof all_windows_cycle as Hall.
  rewrite forallb_forall in Hall.
  specialize (Hall w (all_bits_complete 9 _ Hw)).
  apply orb_prop in Hall. destruct Hall as [Hz|Hc]; [left|right; exact Hc].
  apply same_register_eq, Hz.
Qed.

(** X2. Maximal length: unless cells 7 to 15 are all zero, the register reached
    after seven advances returns to itself after 511 advances and at no
    smaller positive number of advances. *)
Theorem register_cycle_is_511 (t : list bool) :
  length t = 16%nat ->
  skipn 7 t <> repeat false 9 ->
  advance_n 511 (advance_n 7 t) = advance_n 7 t /\
  (forall k, (0 < k < 511)%nat ->
             advance_n k (advance_n 7 t) <> advance_n 7 t).
Proof.
  intros Hlen Hnz.
  assert (Hw : length (skipn 7 t) = 9%nat) by (rewrite length_skipn; lia).
  destruct (window_cases _ Hw) as [Hz|Hc]; [contradiction|].
  rewrite (advance_7_window t Hlen).
  apply full_cycle_returns, Hc.
Qed.

Lemma register_cycle_is_511_witness :
  advance_n 511 (advance_n 7 tap_init) = advance_n 7 tap_init /\
  (forall k, (0 < k < 511)%nat ->
             advance_n k (advance_n 7 tap_init) <> advance_n 7 tap_init).
Proof.
  apply (register_cycle_is_511 tap_init).
  - reflexivity.
  - simpl. discriminate.
Defined.

(** X3. The degenerate register: when cells 7 to 15 are all zero they stay so,
    and every expected bit from then on is 0. *)
Theorem zero_window_is_dead (t : list bool) (n : nat) :
  length t = 16%nat ->
  skipn 7 t = repeat false 9 ->
  skipn 7 (advance_n n t) = repeat false 9 /\
  expected (advance_n n t) = false.
Proof.
  revert t. induction n as [|n IH]; intros t Hlen Hz.
  - split; [exact Hz|]. name_cells t Hlen. simpl in Hz.
    injection Hz as -> -> -> -> -> -> -> -> ->. reflexivity.
  - simpl. apply IH.
    + apply advance_length, Hlen.
    + name_cells t Hlen. simpl in Hz.
      injection Hz as -> -> -> -> -> -> -> -> ->. reflexivity.
Qed.

Lemma zero_window_is_dead_witness :
  skipn 7 (advance_n 100 (repeat false 16)) = repeat false 9 /\
  expected (advance_n 100 (repeat false 16)) = false.
Proof.
  apply (zero_window_is_dead (repeat false 16) 100); reflexivity.
Defined.

(** ** What a sync iteration does to the register *)

Lemma set_length (t : list bool) : forall (i : nat) (v : bool),
  length (CCS.set t i v) = length t.
Proof. induction t as [|x t IH]; intros [|i] v; simpl; auto. Qed.

Lemma set_15_same (t : list bool) :
  length t = 16%nat -> CCS.set t 15 (CCS.get t 15) = t.
Proof. intros H. name_cells t H. reflexivity. Qed.

(** One sync iteration, match or mismatch, as a record. *)
Lemma sync_iter_takes_sample (cfg : settings) (DATA_IN : nat -> bool)
      (m : machine) :
  length (tap m) = 16%nat ->
  sync_iter cfg DATA_IN m
  = mkMachine (if matches cfg DATA_IN m
               then CCS.int8 (RenzokuError m + 1) else 1)
              (ErrorBits m) (CountBits m)
              (advance (CCS.set (tap m) 15 (sample cfg DATA_IN m)))
              (SYNC_LED m) (S (period m)).
Proof.
  intros Hlen. unfold sync_iter, sync_incr, sync_body.
  destruct (matches cfg DATA_IN m) eqn:E; unfold matches in E.
  - apply eqb_prop in E. rewrite <- E, set_15_same by exact Hlen.
    destruct m; reflexivity.
  - apply eqb_false_iff in E.
    assert (Hs : sample cfg DATA_IN m = negb (CCS.get (tap m) 15)).
    { destruct (sample cfg DATA_IN m), (CCS.get (tap m) 15);
        try reflexivity; exfalso; apply E; reflexivity. }
    rewrite Hs. reflexivity.
Qed.

(** X4. In every sync iteration, whether the sampled bit matched or not, the
    sampled (polarity-corrected) bit ends up in the register: the register
    after the iteration is the advance of the register with cell 15 set to
    the sampled bit, so the sampled bit sits in cell 14 and the new expected
    bit is computed from cells 7 and 11. *)
Theorem sync_iteration_loads_sample
        (cfg : settings) (DATA_IN : nat -> bool) (m : machine) :
  length (tap m) = 16%nat ->
  tap (sync_iter cfg DATA_IN m)
  = advance (CCS.set (tap m) 15 (sample cfg DATA_IN m)) /\
  CCS.get (tap (sync_iter cfg DATA_IN m)) 14 = sample cfg DATA_IN m /\
  expected (tap (sync_iter cfg DATA_IN m))
  = xorb (CCS.get (tap m) 7) (CCS.get (tap m) 11) /\
  length (tap (sync_iter cfg DATA_IN m)) = 16%nat.
Proof.
  intros Hlen. rewrite sync_iter_takes_sample by exact Hlen. cbn [tap].
  generalize (sample cfg DATA_IN m) as b. intros b.
  destruct (tap m) as [|c t] eqn:E; [discriminate Hlen|].
  clear E. set (v := c :: t) in *. clearbody v. clear c t.
  name_cells v Hlen. repeat split.
Qed.

Lemma sync_iteration_loads_sample_witness :
  tap (sync_iter factory_settings (fun _ => false) power_on)
  = advance (CCS.set (tap power_on) 15
                     (sample factory_settings (fun _ => false) power_on)) /\
  CCS.get (tap (sync_iter factory_settings (fun _ => false) power_on)) 14
  = sample factory_settings (fun _ => false) power_on /\
  expected (tap (sync_iter factory_settings (fun _ => false) power_on))
  = xorb (CCS.get (tap power_on) 7) (CCS.get (tap power_on) 11) /\
  length (tap (sync_iter factory_settings (fun _ => false) power_on)) = 16%nat.
Proof.
  apply (sync_iteration_loads_sample factory_settings (fun _ => false) power_on).
  reflexivity.
Defined.

Lemma take_bits_ext (k : nat) : forall (x y : nat -> bool) (t : list bool),
  (forall i, (i < k)%nat -> x i = y i) ->
  take_bits x k t = take_bits y k t.
Proof.
  induction k as [|k IH]; intros x y t H; simpl; [reflexivity|].
  rewrite (H 0%nat) by lia. apply IH. intros i Hi. apply H. lia.
Qed.

Lemma take_bits_length (k : nat) : forall (x : nat -> bool) (t : list bool),
  length t = 16%nat -> length (take_bits x k t) = 16%nat.
Proof.
  induction k as [|k IH]; intros x t H; simpl; [exact H|].
  apply IH, advance_length. rewrite set_length. exact H.
Qed.

(** The state of the sync loop after [j] iterations, on any stream: the
    register has taken in the [j] received bits, and the counter has grown
    by at most [j]. *)
Lemma sync_takes_bits (cfg : settings) (DATA_IN : nat -> bool) (j : nat) :
  forall m : machine,
    length (tap m) = 16%nat ->
    0 <= RenzokuError m ->
    RenzokuError m + Z.of_nat j < 256 ->
    tap (iterate j (sync_iter cfg DATA_IN) m)
    = take_bits (received cfg DATA_IN (period m)) j (tap m) /\
    period (iterate j (sync_iter cfg DATA_IN) m) = (period m + j)%nat /\
    0 <= RenzokuError (iterate j (sync_iter cfg DATA_IN) m)
      <= RenzokuError m + Z.of_nat j /\
    ErrorBits (iterate j (sync_iter cfg DATA_IN) m) = ErrorBits m /\
    CountBits (iterate j (sync_iter cfg DATA_IN) m) = CountBits m /\
    SYNC_LED (iterate j (sync_iter cfg DATA_IN) m) = SYNC_LED m.
Proof.
  induction j as [|j IH]; intros m Hlen Hlo Hhi.
  - simpl. repeat split; try lia.
  - change (iterate (S j) (sync_iter cfg DATA_IN) m)
      with (iterate j (sync_iter cfg DATA_IN) (sync_iter cfg DATA_IN m)).
    pose proof (sync_iter_takes_sample cfg DATA_IN m Hlen) as Hstep.
    assert (Hr : 0 <= RenzokuError (sync_iter cfg DATA_IN m)
                 <= RenzokuError m + 1).
    { rewrite Hstep. cbn [RenzokuError].
      destruct (matches cfg DATA_IN m); [|lia].
      unfold CCS.int8. rewrite Z.mod_small; lia. }
    destruct (IH (sync_iter cfg DATA_IN m)) as (Ht & Hp & Hc & He & Hn & Hl).
    + rewrite Hstep. cbn [tap]. apply advance_length.
      rewrite set_length. exact Hlen.
    + lia.
    + lia.
    + assert (Ht1 : tap (sync_iter cfg DATA_IN m)
                    = advance (CCS.set (tap m) 15 (sample cfg DATA_IN m)))
        by (rewrite Hstep; reflexivity).
      assert (Hp1 : period (sync_iter cfg DATA_IN m) = S (period m))
        by (rewrite Hstep; reflexivity).
      assert (He1 : ErrorBits (sync_iter cfg DATA_IN m) = ErrorBits m)
        by (rewrite Hstep; reflexivity).
      assert (Hn1 : CountBits (sync_iter cfg DATA_IN m) = CountBits m)
        by (rewrite Hstep; reflexivity).
      assert (Hl1 : SYNC_LED (sync_iter cfg DATA_IN m) = SYNC_LED m)
        by (rewrite Hstep; reflexivity).
      rewrite Ht, Hp, He, Hn, Hl, Ht1, Hp1, He1, Hn1, Hl1.
      repeat split; try lia.
      simpl.
      replace (received cfg DATA_IN (period m) 0) with (sample cfg DATA_IN m)
        by (unfold received, sample; rewrite Nat.add_0_r; reflexivity).
      apply take_bits_ext. intros i _. unfold received.
      rewrite Nat.add_succ_r. reflexivity.
Qed.

(** ** Lock acquisition on a PN stream *)

Lemma for_loop_skip {S : Type} (cond : S -> bool) (body incr : S -> S)
      (k : nat) : forall (fuel : nat) (s : S),
  (forall j, (j < k)%nat ->
     cond (iterate j (fun x => incr (body x)) s) = true) ->
  for_loop cond body incr (k + fuel) s
  = for_loop cond body incr fuel (iterate k (fun x => incr (body x)) s).
Proof.
  induction k as [|k IH]; intros fuel s Hrun; [reflexivity|].
  pose proof (Hrun 0%nat ltac:(lia)) as H0. simpl in H0.
  simpl. rewrite H0. apply IH.
  intros j Hj. apply (Hrun (Datatypes.S j)). lia.
Qed.

Lemma in_step_advance (t u : list bool) :
  length t = 16%nat -> length u = 16%nat ->
  in_step t u -> in_step (advance t) (advance u).
Proof.
  intros Ht Hu H. name_cells t Ht. name_cells u Hu.
  unfold in_step in *. simpl in H.
  injection H; intros; subst. reflexivity.
Qed.

Lemma in_step_expected (t u : list bool) :
  length t = 16%nat -> length u = 16%nat ->
  in_step t u -> expected t = expected u.
Proof.
  intros Ht Hu H. name_cells t Ht. name_cells u Hu.
  unfold in_step in *. simpl in H.
  injection H; intros; subst. reflexivity.
Qed.

Lemma in_step_advance_n (n : nat) : forall t u : list bool,
  length t = 16%nat -> length u = 16%nat ->
  in_step t u ->
  in_step (advance_n n t) (advance_n n u) /\
  expected (advance_n n t) = expected (advance_n n u).
Proof.
  induction n as [|n IH]; intros t u Ht Hu H; simpl.
  - split; [exact H | apply in_step_expected; assumption].
  - apply IH; auto using advance_length, in_step_advance.
Qed.

(** Nine bits of the transmitter put the receiver in step with it, whatever
    its register held. *)
Lemma take_9_in_step (t u : list bool) :
  length t = 16%nat -> length u = 16%nat ->
  in_step (take_bits (fun i => expected (advance_n i u)) 9 t) (advance_n 9 u).
Proof.
  intros Ht Hu. name_cells t Ht. name_cells u Hu. reflexivity.
Qed.

Lemma data_of_received (cfg : settings) (DATA_IN : nat -> bool)
      (p i : nat) (e : bool) :
  DATA_IN (p + i)%nat = xorb e (DataNeg cfg) ->
  received cfg DATA_IN p i = e.
Proof.
  unfold received. intros ->.
  rewrite xorb_assoc, xorb_nilpotent, xorb_false_r. reflexivity.
Qed.

(** The sync loop on the stream of a transmitter with register [u], from any
    receiver register: it leaves after [q] bits, [ThresError <= q <=
    ThresError + 9], with the receiver in step with the transmitter. *)
Lemma sync_acquires (cfg : settings) (DATA_IN : nat -> bool) (m : machine)
      (u : list bool) (fuel : nat) :
  length (tap m) = 16%nat -> length u = 16%nat ->
  9 <= ThresError cfg < 256 ->
  (forall i, DATA_IN (period m + i)%nat
             = generator_stream (DataNeg cfg) u i) ->
  (Z.to_nat (ThresError cfg) + 9 <= fuel)%nat ->
  exists (locked : machine) (q : nat),
    sync_phase cfg DATA_IN fuel (countber_entry m) = Some locked /\
    period locked = (period m + q)%nat /\
    (Z.to_nat (ThresError cfg) <= q <= Z.to_nat (ThresError cfg) + 9)%nat /\
    RenzokuError locked = ThresError cfg /\
    ErrorBits locked = 0 /\
    length (tap locked) = 16%nat /\
    in_step (tap locked) (advance_n q u).
Proof.
  intros Ht Hu Hthres Hdata Hfuel.
  set (m0 := countber_entry m).
  assert (Hfacts : forall j, (j <= 9)%nat ->
            tap (iterate j (sync_iter cfg DATA_IN) m0)
            = take_bits (received cfg DATA_IN (period m)) j (tap m) /\
            period (iterate j (sync_iter cfg DATA_IN) m0) = (period m + j)%nat /\
            0 <= RenzokuError (iterate j (sync_iter cfg DATA_IN) m0)
              <= Z.of_nat j /\
            ErrorBits (iterate j (sync_iter cfg DATA_IN) m0) = 0 /\
            CountBits (iterate j (sync_iter cfg DATA_IN) m0) = 0 /\
            SYNC_LED (iterate j (sync_iter cfg DATA_IN) m0) = false).
  { intros j Hj.
    destruct (sync_takes_bits cfg DATA_IN j m0) as (A & B & C & D & E & F);
      simpl; try lia; auto.
    change (period m0) with (period m) in *.
    change (tap m0) with (tap m) in *.
    change (RenzokuError m0) with 0 in C.
    change (ErrorBits m0) with 0 in D.
    change (CountBits m0) with 0 in E.
    change (SYNC_LED m0) with false in F.
    repeat split; auto; lia. }
  set (s9 := iterate 9 (sync_iter cfg DATA_IN) m0) in *.
  destruct (Hfacts 9%nat ltac:(lia)) as (Htap & Hper & Hcnt & Herr & _ & _).
  fold s9 in Htap, Hper, Hcnt, Herr.
  assert (Hstep9 : in_step (tap s9) (advance_n 9 u)).
  { rewrite Htap.
    rewrite (take_bits_ext 9 _ (fun i => expected (advance_n i u))).
    - apply take_9_in_step; assumption.
    - intros i _. apply data_of_received. apply Hdata. }
  assert (Hlen9 : length (tap s9) = 16%nat).
  { rewrite Htap. apply take_bits_length, Ht. }
  set (n := Z.to_nat (ThresError cfg - RenzokuError s9)).
  exists (mkMachine (ThresError cfg) (ErrorBits s9) (CountBits s9)
                    (advance_n n (tap s9)) (SYNC_LED s9) (period s9 + n)%nat),
         (9 + n)%nat.
  split; [|cbn [period RenzokuError ErrorBits tap]; repeat split; try lia].
  - replace fuel with (9 + (fuel - 9))%nat by lia.
    unfold sync_phase. rewrite for_loop_skip.
    + apply (sync_phase_matching cfg DATA_IN n (fuel - 9) s9); try lia.
      intros j Hj. rewrite Hper, <- Nat.add_assoc, Hdata.
      unfold generator_stream. rewrite advance_n_add.
      destruct (in_step_advance_n j (tap s9) (advance_n 9 u)) as [_ He];
        auto using advance_n_length.
      rewrite He. reflexivity.
    + intros j Hj. destruct (Hfacts j ltac:(lia)) as (_ & _ & Hc & _).
      unfold sync_cond. apply Z.ltb_lt.
      change (fun x => sync_incr (sync_body cfg DATA_IN x))
        with (sync_iter cfg DATA_IN). lia.
  - apply advance_n_length, Hlen9.
  - rewrite advance_n_add.
    apply in_step_advance_n; auto using advance_n_length.
Qed.

(** The count loop of a receiver in step with the transmitter. *)
Lemma count_in_step (cfg : settings) (DATA_IN : nat -> bool)
      (locked : machine) (v : list bool) (fuel : nat) :
  length (tap locked) = 16%nat -> length v = 16%nat ->
  in_step (tap locked) v ->
  ErrorBits locked = 0 ->
  0 <= TotalBits cfg < 65536 ->
  (forall i, DATA_IN (period locked + i)%nat
             = generator_stream (DataNeg cfg) v i) ->
  (Z.to_nat (TotalBits cfg) <= fuel)%nat ->
  exists r,
    count_phase cfg DATA_IN fuel locked = Some r /\
    ErrorBits r = 0 /\
    CountBits r = TotalBits cfg /\
    period r = (period locked + Z.to_nat (TotalBits cfg))%nat /\
    length (tap r) = 16%nat /\
    in_step (tap r) (advance_n (Z.to_nat (TotalBits cfg)) v).
Proof.
  intros Ht Hv Hstep Herr Htot Hdata Hfuel.
  destruct (count_phase_run cfg DATA_IN locked Htot Herr) as [_ Hlong].
  eexists. split; [apply Hlong, Hfuel|].
  cbn [ErrorBits CountBits period tap]. repeat split.
  - rewrite mismatches_generator; [reflexivity|].
    intros j _. rewrite Hdata. unfold generator_stream.
    destruct (in_step_advance_n j (tap locked) v) as [_ He]; auto.
    rewrite He. reflexivity.
  - apply advance_n_length, Ht.
  - apply in_step_advance_n; auto.
Qed.

(** A whole measurement on the stream of a transmitter with register [u]. *)
Lemma measurement_on_pn_stream (cfg : settings) (DATA_IN : nat -> bool)
      (m : machine) (u : list bool) (fuel : nat) :
  length (tap m) = 16%nat -> length u = 16%nat ->
  9 <= ThresError cfg < 256 ->
  0 <= TotalBits cfg < 65536 ->
  (forall i, DATA_IN (period m + i)%nat
             = generator_stream (DataNeg cfg) u i) ->
  (Z.to_nat (ThresError cfg) + 9 <= fuel)%nat ->
  (Z.to_nat (TotalBits cfg) <= fuel)%nat ->
  exists (r : machine) (q : nat),
    countber cfg DATA_IN fuel m = Some r /\
    ErrorBits r = 0 /\
    CountBits r = TotalBits cfg /\
    period r = (period m + q)%nat /\
    (Z.to_nat (ThresError cfg) + Z.to_nat (TotalBits cfg) <= q
     <= Z.to_nat (ThresError cfg) + 9 + Z.to_nat (TotalBits cfg))%nat /\
    length (tap r) = 16%nat /\
    in_step (tap r) (advance_n q u).
Proof.
  intros Ht Hu Hthres Htot Hdata Hf1 Hf2.
  destruct (sync_acquires cfg DATA_IN m u fuel Ht Hu Hthres Hdata Hf1)
    as (locked & q & Hsync & Hper & Hq & _ & Herr & Hlen & Hstep).
  destruct (count_in_step cfg DATA_IN locked (advance_n q u) fuel)
    as (r & Hcount & He & Hc & Hp & Hl & Hs); auto using advance_n_length.
  { intros i. rewrite Hper, <- Nat.add_assoc, Hdata.
    unfold generator_stream. rewrite advance_n_add. reflexivity. }
  exists r, (q + Z.to_nat (TotalBits cfg))%nat.
  unfold countber. rewrite Hsync.
  repeat split; auto; try lia.
  rewrite advance_n_add. exact Hs.
Qed.

(** A receiver register different from the power-on one, for the examples. *)
Lemma example_register_length :
  length (advance_n 100 tap_init) = 16%nat.
Proof. reflexivity. Qed.

(** X5. Lock acquisition: on the error-free stream of a transmitter running the
    same generator from any 16-cell register [u] (any phase of the
    sequence), and from any content of the receiver's register, a
    measurement with a threshold of at least 9 completes: the sync loop locks
    within [ThresError + 9] bits, and the count phase then counts
    [TotalBits] bits and no error. *)
Theorem pn_stream_is_acquired
        (cfg : settings) (DATA_IN : nat -> bool) (m : machine)
        (u : list bool) (fuel : nat) :
  length (tap m) = 16%nat -> length u = 16%nat ->
  9 <= ThresError cfg < 256 ->
  0 <= TotalBits cfg < 65536 ->
  (forall i, DATA_IN (period m + i)%nat
             = generator_stream (DataNeg cfg) u i) ->
  (Z.to_nat (ThresError cfg) + 9 <= fuel)%nat ->
  (Z.to_nat (TotalBits cfg) <= fuel)%nat ->
  exists r,
    countber cfg DATA_IN fuel m = Some r /\
    ErrorBits r = 0 /\
    CountBits r = TotalBits cfg /\
    (period r <= period m + Z.to_nat (ThresError cfg) + 9
                 + Z.to_nat (TotalBits cfg))%nat.
Proof.
  intros Ht Hu Hthres Htot Hdata Hf1 Hf2.
  destruct (measurement_on_pn_stream cfg DATA_IN m u fuel)
    as (r & q & Hrun & He & Hc & Hp & Hq & _); auto.
  exists r. repeat split; auto. lia.
Qed.

Lemma pn_stream_is_acquired_witness :
  exists r,
    countber short_settings
             (generator_stream false (advance_n 100 tap_init)) 1019 power_on
    = Some r /\
    ErrorBits r = 0 /\
    CountBits r = 1000 /\
    (period r <= 1019)%nat.
Proof.
  apply (pn_stream_is_acquired
           short_settings (generator_stream false (advance_n 100 tap_init))
           power_on (advance_n 100 tap_init) 1019).
  - reflexivity.
  - reflexivity.
  - change (9 <= 10 < 256). lia.
  - change (0 <= 1000 < 65536). lia.
  - intros i. reflexivity.
  - change (10 + 9 <= 1019)%nat. lia.
  - change (1000 <= 1019)%nat. lia.
Defined.




(** ** A data line that does not move *)

Lemma all_zero_stays (n : nat) :
  advance_n n (repeat false 16) = repeat false 16.
Proof. induction n as [|n IH]; [reflexivity|]. simpl. exact IH. Qed.

(** X7. A dead data line is not detected: when every polarity-corrected data bit
    is 0, a measurement with a threshold of at least 9 locks (onto the
    all-zero sequence), within [ThresError + 9] bits and from any register
    content, and reports [TotalBits] counted bits and no error. *)
Theorem dead_line_reads_error_free
        (cfg : settings) (DATA_IN : nat -> bool) (m : machine) (fuel : nat) :
  length (tap m) = 16%nat ->
  9 <= ThresError cfg < 256 ->
  0 <= TotalBits cfg < 65536 ->
  (forall n, DATA_IN n = DataNeg cfg) ->
  (Z.to_nat (ThresError cfg) + 9 <= fuel)%nat ->
  (Z.to_nat (TotalBits cfg) <= fuel)%nat ->
  exists r,
    countber cfg DATA_IN fuel m = Some r /\
    ErrorBits r = 0 /\
    CountBits r = TotalBits cfg /\
    SYNC_LED r = true.
Proof.
  intros Ht Hthres Htot Hdata Hf1 Hf2.
  destruct (measurement_on_pn_stream cfg DATA_IN m (repeat false 16) fuel)
    as (r & q & Hrun & He & Hc & _); auto.
  { intros i. rewrite Hdata. unfold generator_stream.
    rewrite all_zero_stays. destruct (DataNeg cfg); reflexivity. }
  exists r. repeat split; auto.
  unfold countber in Hrun.
  destruct (sync_phase cfg DATA_IN fuel (countber_entry m)) as [locked|] eqn:E;
    [|discriminate].
  assert (Herr : ErrorBits locked = 0).
  { apply sync_phase_keeps_ErrorBits in E. exact E. }
  destruct (count_phase_run cfg DATA_IN locked Htot Herr) as [_ Hlong].
  rewrite Hlong in Hrun by exact Hf2. injection Hrun as <-. reflexivity.
Qed.

Lemma dead_line_reads_error_free_witness :
  exists r,
    countber short_settings (fun _ => false) 1000 power_on = Some r /\
    ErrorBits r = 0 /\
    CountBits r = 1000 /\
    SYNC_LED r = true.
Proof.
  apply (dead_line_reads_error_free
           short_settings (fun _ => false) power_on 1000).
  - reflexivity.
  - change (9 <= 10 < 256). lia.
  - change (0 <= 1000 < 65536). lia.
  - intros n. reflexivity.
  - change (10 + 9 <= 1000)%nat. lia.
  - change (1000 <= 1000)%nat. lia.
Defined.

Lemma take_9_ones_jam (t : list bool) :
  length t = 16%nat -> jam (take_bits (fun _ => true) 9 t).
Proof. intros H. name_cells t H. reflexivity. Qed.

Lemma jam_step (t : list bool) :
  length t = 16%nat -> jam t ->
  expected t = false /\ jam (advance (CCS.set t 15 true)).
Proof.
  intros H Hj. name_cells t H. unfold jam in *. simpl in Hj.
  injection Hj; intros; subst. split; reflexivity.
Qed.

(** The sync loop on a data line whose polarity-corrected bit is always 1:
    from the ninth iteration on the register is jammed and the counter is
    at most 9. *)
Lemma stuck_high_states (cfg : settings) (DATA_IN : nat -> bool)
      (m : machine) (k : nat) :
  length (tap m) = 16%nat ->
  (forall n, DATA_IN n = negb (DataNeg cfg)) ->
  jam (tap (iterate (9 + k) (sync_iter cfg DATA_IN) (countber_entry m))) /\
  length (tap (iterate (9 + k) (sync_iter cfg DATA_IN) (countber_entry m)))
  = 16%nat /\
  0 <= RenzokuError
         (iterate (9 + k) (sync_iter cfg DATA_IN) (countber_entry m)) <= 9.
Proof.
  intros Ht Hdata.
  assert (Hs : forall s, sample cfg DATA_IN s = true).
  { intros s. unfold sample. rewrite Hdata.
    destruct (DataNeg cfg); reflexivity. }
  induction k as [|k IH].
  - assert (Hlo : 0 <= RenzokuError (countber_entry m))
      by (change (RenzokuError (countber_entry m)) with 0; lia).
    assert (Hhi : RenzokuError (countber_entry m) + Z.of_nat 9 < 256)
      by (change (RenzokuError (countber_entry m)) with 0; lia).
    destruct (sync_takes_bits cfg DATA_IN 9 (countber_entry m) Ht Hlo Hhi)
      as (A & _ & C & _).
    change (period (countber_entry m)) with (period m) in A.
    change (tap (countber_entry m)) with (tap m) in A.
    rewrite Nat.add_0_r.
    assert (Htake : tap (iterate 9 (sync_iter cfg DATA_IN) (countber_entry m))
                    = take_bits (fun _ => true) 9 (tap m)).
    { rewrite A. apply take_bits_ext. intros i _.
      unfold received. rewrite Hdata. destruct (DataNeg cfg); reflexivity. }
    rewrite Htake. repeat split.
    + apply take_9_ones_jam, Ht.
    + apply take_bits_length, Ht.
    + apply C.
    + change (RenzokuError (countber_entry m)) with 0 in C. lia.
  - destruct IH as (Hj & Hl & Hc).
    replace (9 + S k)%nat with (S (9 + k)) by lia.
    rewrite iterate_succ, sync_iter_takes_sample by exact Hl.
    cbn [tap RenzokuError]. rewrite Hs.
    destruct (jam_step _ Hl Hj) as [He Hj'].
    unfold matches. rewrite Hs.
    fold (expected (tap (iterate (9 + k) (sync_iter cfg DATA_IN)
                                 (countber_entry m)))).
    rewrite He. cbn [Bool.eqb]. repeat split; try lia.
    + exact Hj'.
    + apply advance_length. rewrite set_length. exact Hl.
Qed.

(** X8. A data line stuck at the level that reads as 1 hangs the measurement:
    with a threshold of at least 10, from any register content, the sync
    loop never leaves, so [countber] does not return, whatever the number of
    bit periods allowed. *)
Theorem stuck_high_line_never_locks
        (cfg : settings) (DATA_IN : nat -> bool) (m : machine) (fuel : nat) :
  length (tap m) = 16%nat ->
  10 <= ThresError cfg ->
  (forall n, DATA_IN n = negb (DataNeg cfg)) ->
  sync_phase cfg DATA_IN fuel (countber_entry m) = None /\
  countber cfg DATA_IN fuel m = None.
Proof.
  intros Ht Hthres Hdata.
  assert (Hsync : sync_phase cfg DATA_IN fuel (countber_entry m) = None).
  { apply for_loop_running. intros j _.
    change (fun s => sync_incr (sync_body cfg DATA_IN s))
      with (sync_iter cfg DATA_IN).
    unfold sync_cond. apply Z.ltb_lt.
    destruct (Nat.le_gt_cases j 9) as [Hle|Hgt].
    - assert (Hlo : 0 <= RenzokuError (countber_entry m))
        by (change (RenzokuError (countber_entry m)) with 0; lia).
      assert (Hhi : RenzokuError (countber_entry m) + Z.of_nat j < 256)
        by (change (RenzokuError (countber_entry m)) with 0; lia).
      destruct (sync_takes_bits cfg DATA_IN j (countber_entry m) Ht Hlo Hhi)
        as (_ & _ & C & _).
      change (RenzokuError (countber_entry m)) with 0 in C. lia.
    - replace j with (9 + (j - 9))%nat by lia.
      destruct (stuck_high_states cfg DATA_IN m (j - 9) Ht Hdata)
        as (_ & _ & C). lia. }
  split; [exact Hsync|]. unfold countber. rewrite Hsync. reflexivity.
Qed.

Lemma stuck_high_line_never_locks_witness :
  sync_phase factory_settings (fun _ => true) 1000 (countber_entry power_on)
  = None /\
  countber factory_settings (fun _ => true) 1000 power_on = None.
Proof.
  apply (stuck_high_line_never_locks
           factory_settings (fun _ => true) power_on 1000).
  - reflexivity.
  - change (10 <= 10). lia.
  - intros n. reflexivity.
Defined.

(** ** The counters of a measurement *)

(** In the count phase an error is counted once and has no after-effect. *)
Lemma mismatches_single (cfg : settings) (DATA_IN : nat -> bool) (n : nat) :
  forall (t : list bool) (k j0 : nat),
    (j0 < n)%nat ->
    (forall j, (j < n)%nat -> j <> j0 ->
       DATA_IN (k + j)%nat = generator_stream (DataNeg cfg) t j) ->
    DATA_IN (k + j0)%nat = negb (generator_stream (DataNeg cfg) t j0) ->
    mismatches (DataNeg cfg) DATA_IN t k n = 1%nat.
Proof.
  induction n as [|n IH]; intros t k j0 Hj0 Hgood Hbad; [lia|].
  simpl. destruct j0 as [|j0].
  - rewrite Nat.add_0_r in Hbad. rewrite Hbad.
    unfold generator_stream at 1. simpl.
    assert (Hne : Bool.eqb (expected t)
                    (xorb (negb (xorb (expected t) (DataNeg cfg)))
                          (DataNeg cfg)) = false)
      by (destruct (expected t), (DataNeg cfg); reflexivity).
    rewrite Hne. rewrite mismatches_generator; [reflexivity|].
    intros j Hj. specialize (Hgood (S j) ltac:(lia) ltac:(lia)).
    rewrite Nat.add_succ_r in Hgood. exact Hgood.
  - pose proof (Hgood 0%nat ltac:(lia) ltac:(lia)) as H0.
    rewrite Nat.add_0_r in H0. rewrite H0.
    unfold generator_stream at 1. simpl.
    rewrite xorb_assoc, xorb_nilpotent, xorb_false_r, eqb_reflx. simpl.
    apply (IH (advance t) (S k) j0); [lia| |].
    + intros j Hj Hne. specialize (Hgood (S j) ltac:(lia) ltac:(lia)).
      rewrite Nat.add_succ_r in Hgood. exact Hgood.
    + rewrite Nat.add_succ_r in Hbad. exact Hbad.
Qed.

(** X9. No error multiplication: once locked, a single inverted bit in an
    otherwise matching stream is counted as exactly one error, and the
    register is the one an error-free run would have left. *)
Theorem single_error_counts_once
        (cfg : settings) (DATA_IN : nat -> bool) (fuel0 fuel : nat)
        (m locked : machine) (j0 : nat) :
  0 <= TotalBits cfg < 65536 ->
  sync_phase cfg DATA_IN fuel0 (countber_entry m) = Some locked ->
  (j0 < Z.to_nat (TotalBits cfg))%nat ->
  (forall j, (j < Z.to_nat (TotalBits cfg))%nat -> j <> j0 ->
     DATA_IN (period locked + j)%nat
     = generator_stream (DataNeg cfg) (tap locked) j) ->
  DATA_IN (period locked + j0)%nat
  = negb (generator_stream (DataNeg cfg) (tap locked) j0) ->
  (fuel0 <= fuel)%nat ->
  (Z.to_nat (TotalBits cfg) <= fuel)%nat ->
  exists r,
    countber cfg DATA_IN fuel m = Some r /\
    ErrorBits r = 1 /\
    CountBits r = TotalBits cfg /\
    tap r = advance_n (Z.to_nat (TotalBits cfg)) (tap locked).
Proof.
  intros Htot Hsync Hj0 Hgood Hbad Hf0 Hf.
  assert (Herr : ErrorBits locked = 0).
  { apply sync_phase_keeps_ErrorBits in Hsync. exact Hsync. }
  destruct (count_phase_run cfg DATA_IN locked Htot Herr) as [_ Hlong].
  eexists. split.
  - unfold countber. unfold sync_phase in *.
    rewrite (for_loop_more_fuel _ _ _ _ fuel _ _ Hsync Hf0).
    apply Hlong, Hf.
  - cbn [ErrorBits CountBits tap]. repeat split.
    rewrite (mismatches_single cfg DATA_IN _ _ _ j0); auto.
Qed.

Lemma single_error_counts_once_witness :
  exists r,
    countber short_settings
             (stream_with_error_at 500 (generator_stream false tap_init))
             1000 power_on = Some r /\
    ErrorBits r = 1 /\
    CountBits r = TotalBits short_settings /\
    tap r = advance_n (Z.to_nat (TotalBits short_settings))
                      (tap (mkMachine 10 0 0 (advance_n 10 tap_init)
                                      false 10)).
Proof.
  apply (single_error_counts_once
           short_settings
           (stream_with_error_at 500 (generator_stream false tap_init))
           10 1000 power_on
           (mkMachine 10 0 0 (advance_n 10 tap_init) false 10) 490).
  - change (0 <= 1000 < 65536). lia.
  - vm_compute. reflexivity.
  - change (490 < 1000)%nat. lia.
  - intros j _ Hne. cbn [period tap DataNeg]. unfold stream_with_error_at.
    replace (Nat.eqb (10 + j) 500) with false
      by (symmetry; apply Nat.eqb_neq; lia).
    unfold generator_stream. rewrite advance_n_add. reflexivity.
  - cbn [period tap DataNeg]. unfold stream_with_error_at.
    change (Nat.eqb (10 + 490) 500) with true. cbv iota.
    unfold generator_stream. rewrite advance_n_add. reflexivity.
  - lia.
  - change (1000 <= 1000)%nat. lia.
Defined.

(** The sync loop keeps the counter between 0 and the threshold, below the
    number of bits sampled, and the lock indicator off. *)
Lemma sync_phase_bounds (cfg : settings) (DATA_IN : nat -> bool)
      (fuel : nat) (m locked : machine) :
  0 <= ThresError cfg ->
  sync_phase cfg DATA_IN fuel (countber_entry m) = Some locked ->
  RenzokuError locked = ThresError cfg /\
  ThresError cfg <= Z.of_nat (period locked) - Z.of_nat (period m) /\
  SYNC_LED locked = false.
Proof.
  intros Hthres Hrun.
  destruct (for_loop_invariant
              (sync_cond cfg) (sync_body cfg DATA_IN) sync_incr
              (fun s => 0 <= RenzokuError s <= ThresError cfg /\
                        RenzokuError s
                        <= Z.of_nat (period s) - Z.of_nat (period m) /\
                        SYNC_LED s = false)
              fuel (countber_entry m) locked) as [(Hr & Hp & Hl) Hexit];
    auto.
  - intros x (Hr & Hp & Hl) Hc. unfold sync_cond in Hc.
    apply Z.ltb_lt in Hc.
    unfold sync_incr, sync_body.
    destruct (matches cfg DATA_IN x); cbn [RenzokuError period SYNC_LED
      set_RenzokuError set_tap next_period]; unfold CCS.int8.
    + pose proof (Z.mod_pos_bound (RenzokuError x + 1) 256 ltac:(lia)).
      pose proof (Z.mod_le (RenzokuError x + 1) 256 ltac:(lia) ltac:(lia)).
      repeat split; auto; lia.
    + change ((0 + 1) mod 256) with 1. repeat split; auto; lia.
  - simpl. repeat split; auto; lia.
  - unfold sync_cond in Hexit. apply Z.ltb_ge in Hexit.
    repeat split; auto; lia.
Qed.

(** The state a completed measurement leaves. *)
Lemma countber_final (cfg : settings) (DATA_IN : nat -> bool)
      (fuel : nat) (m r : machine) :
  0 <= TotalBits cfg < 65536 ->
  countber cfg DATA_IN fuel m = Some r ->
  CountBits r = TotalBits cfg /\
  0 <= ErrorBits r <= TotalBits cfg /\
  SYNC_LED r = true /\
  exists locked,
    sync_phase cfg DATA_IN fuel (countber_entry m) = Some locked /\
    RenzokuError r = RenzokuError locked /\
    (period locked <= period r)%nat.
Proof.
  intros Htot Hrun. unfold countber in Hrun.
  destruct (sync_phase cfg DATA_IN fuel (countber_entry m)) as [locked|] eqn:E;
    [|discriminate].
  assert (Herr : ErrorBits locked = 0).
  { apply sync_phase_keeps_ErrorBits in E. exact E. }
  destruct (count_phase_run cfg DATA_IN locked Htot Herr) as [Hshort Hlong].
  destruct (Nat.lt_ge_cases fuel (Z.to_nat (TotalBits cfg))) as [Hlt|Hge].
  - rewrite Hshort in Hrun by exact Hlt. discriminate.
  - rewrite Hlong in Hrun by exact Hge. injection Hrun as <-.
    cbn [CountBits ErrorBits SYNC_LED RenzokuError period].
    pose proof (mismatches_le cfg DATA_IN (Z.to_nat (TotalBits cfg))
                              (tap locked) (period locked)).
    repeat split; try lia.
    exists locked. repeat split; auto. lia.
Qed.

(** X10. A completed measurement never reports more errors than bits: at its end
    [CountBits] is [TotalBits], [ErrorBits] is between 0 and [CountBits]
    (neither counter has wrapped around), the consecutive-match counter is
    at the threshold and the lock indicator is on. *)
Theorem completed_measurement_counters
        (cfg : settings) (DATA_IN : nat -> bool) (fuel : nat) (m r : machine) :
  0 <= ThresError cfg ->
  0 <= TotalBits cfg < 65536 ->
  countber cfg DATA_IN fuel m = Some r ->
  CountBits r = TotalBits cfg /\
  0 <= ErrorBits r <= CountBits r /\
  RenzokuError r = ThresError cfg /\
  SYNC_LED r = true.
Proof.
  intros Hthres Htot Hrun.
  destruct (countber_final cfg DATA_IN fuel m r Htot Hrun)
    as (Hc & He & Hl & locked & Hsync & Hr & _).
  destruct (sync_phase_bounds cfg DATA_IN fuel m locked Hthres Hsync)
    as (Hr' & _).
  repeat split; try lia; auto.
Qed.

Lemma completed_measurement_counters_witness :
  CountBits (mkMachine 10 0 1000 (repeat false 16) true 1018) = 1000 /\
  0 <= ErrorBits (mkMachine 10 0 1000 (repeat false 16) true 1018)
    <= CountBits (mkMachine 10 0 1000 (repeat false 16) true 1018) /\
  RenzokuError (mkMachine 10 0 1000 (repeat false 16) true 1018) = 10 /\
  SYNC_LED (mkMachine 10 0 1000 (repeat false 16) true 1018) = true.
Proof.
  apply (completed_measurement_counters
           short_settings (fun _ => false) 1000 power_on
           (mkMachine 10 0 1000 (repeat false 16) true 1018)).
  - change (0 <= 10). lia.
  - change (0 <= 1000 < 65536). lia.
  - vm_compute. reflexivity.
Defined.

(** X11. Lock is never declared early: when the sync loop leaves, at least
    [ThresError] bits have been sampled since [countber] was called, and
    the lock indicator has stayed off up to that point. *)
Theorem lock_takes_at_least_ThresError_bits
        (cfg : settings) (DATA_IN : nat -> bool) (fuel : nat)
        (m locked : machine) :
  0 <= ThresError cfg ->
  sync_phase cfg DATA_IN fuel (countber_entry m) = Some locked ->
  (period m + Z.to_nat (ThresError cfg) <= period locked)%nat /\
  SYNC_LED locked = false.
Proof.
  intros Hthres Hrun.
  destruct (sync_phase_bounds cfg DATA_IN fuel m locked Hthres Hrun)
    as (_ & Hp & Hl).
  split; [lia | exact Hl].
Qed.

Lemma lock_takes_at_least_ThresError_bits_witness :
  (period power_on + 10
   <= period (mkMachine 10 0 0 (repeat false 16) false 18))%nat /\
  SYNC_LED (mkMachine 10 0 0 (repeat false 16) false 18) = false.
Proof.
  apply (lock_takes_at_least_ThresError_bits
           factory_settings (fun _ => false) 18 power_on
           (mkMachine 10 0 0 (repeat false 16) false 18)).
  - change (0 <= 10). lia.
  - vm_compute. reflexivity.
Defined.

(** ** The measurement length: [setsetting] *)

Lemma valid_index_cases (i : Z) :
  0 <= i < 6 -> i = 0 \/ i = 1 \/ i = 2 \/ i = 3 \/ i = 4 \/ i = 5.
Proof. lia. Qed.

(** One press on a valid index. *)
Lemma setsetting_valid (beyond : Z -> Z) (c : settings) :
  0 <= TBI c < 6 ->
  TBI (setsetting beyond c) = (TBI c + 1) mod 6 /\
  TotalBits (setsetting beyond c)
  = nth (Z.to_nat ((TBI c + 1) mod 6)) tbit 0 /\
  In (TotalBits (setsetting beyond c)) tbit.
Proof.
  intros H. unfold setsetting. cbn [TBI TotalBits].
  destruct (valid_index_cases _ H) as [E|[E|[E|[E|[E|E]]]]]; rewrite E;
    vm_compute; intuition.
Qed.

(** X12. The length key cycles through the table: from a valid index one press
    gives the next index, wrapping from 5 to 0, and [TotalBits] is the table
    entry at the new index; the polarity flags and the threshold are not
    touched; and six presses come back to the same index. *)
Theorem setsetting_cycles_the_table (beyond : Z -> Z) (c : settings) :
  0 <= TBI c < 6 ->
  TBI (setsetting beyond c) = (TBI c + 1) mod 6 /\
  TotalBits (setsetting beyond c)
  = nth (Z.to_nat (TBI (setsetting beyond c))) tbit 0 /\
  1000 <= TotalBits (setsetting beyond c) <= 65535 /\
  ClockNeg (setsetting beyond c) = ClockNeg c /\
  DataNeg (setsetting beyond c) = DataNeg c /\
  ThresError (setsetting beyond c) = ThresError c /\
  TBI (iterate 6 (setsetting beyond) c) = TBI c.
Proof.
  intros H.
  destruct (setsetting_valid beyond c H) as (Hi & Ht & Hin).
  assert (Hrange : 1000 <= TotalBits (setsetting beyond c) <= 65535).
  { revert Hin. generalize (TotalBits (setsetting beyond c)) as tb.
    intros tb Hin. simpl in Hin. intuition lia. }
  rewrite Hi. repeat split; auto; try lia.
  - destruct c as [cn dn tbi tot th]. cbn [TBI] in *.
    destruct (valid_index_cases _ H) as [E|[E|[E|[E|[E|E]]]]]; rewrite E;
      reflexivity.
Qed.

Lemma setsetting_cycles_the_table_witness :
  TBI (setsetting (fun _ => 0) factory_settings)
  = (TBI factory_settings + 1) mod 6 /\
  TotalBits (setsetting (fun _ => 0) factory_settings)
  = nth (Z.to_nat (TBI (setsetting (fun _ => 0) factory_settings))) tbit 0 /\
  1000 <= TotalBits (setsetting (fun _ => 0) factory_settings) <= 65535 /\
  ClockNeg (setsetting (fun _ => 0) factory_settings)
  = ClockNeg factory_settings /\
  DataNeg (setsetting (fun _ => 0) factory_settings)
  = DataNeg factory_settings /\
  ThresError (setsetting (fun _ => 0) factory_settings)
  = ThresError factory_settings /\
  TBI (iterate 6 (setsetting (fun _ => 0)) factory_settings)
  = TBI factory_settings.
Proof.
  apply (setsetting_cycles_the_table (fun _ => 0) factory_settings).
  change (0 <= 2 < 6). lia.
Defined.

(** The index after [k] presses on an index past the table. *)
Lemma setsetting_past_the_table (beyond : Z -> Z) (c : settings) (k : nat) :
  6 <= TBI c ->
  TBI c + Z.of_nat k < 256 ->
  TBI (iterate k (setsetting beyond) c) = TBI c + Z.of_nat k.
Proof.
  intros Hlo. induction k as [|k IH]; intros Hhi.
  - simpl. lia.
  - rewrite iterate_succ. unfold setsetting at 1. cbn [TBI].
    rewrite IH by lia. unfold CCS.int8.
    rewrite Z.mod_small by lia.
    destruct (TBI c + Z.of_nat k + 1 =? 6) eqn:E.
    + apply Z.eqb_eq in E. lia.
    + lia.
Qed.

(** X13. An index past the table is not repaired by the length key: from a stored
    index of 6 or more every press only adds 1, so the index stays past the
    table, and [TotalBits] is read past it, until the 8-bit index wraps
    around; the press that takes it from 255 to 0 is press number
    [256 - TBI]. *)
Theorem setsetting_leaves_bad_index_until_wrap
        (beyond : Z -> Z) (c : settings) (k : nat) :
  6 <= TBI c < 256 ->
  (Z.of_nat k < 256 - TBI c ->
   TBI (iterate k (setsetting beyond) c) = TBI c + Z.of_nat k /\
   (1 <= Z.of_nat k ->
    TotalBits (iterate k (setsetting beyond) c)
    = CCS.int16 (beyond (TBI c + Z.of_nat k)))) /\
  TBI (iterate (Z.to_nat (256 - TBI c)) (setsetting beyond) c) = 0 /\
  TotalBits (iterate (Z.to_nat (256 - TBI c)) (setsetting beyond) c) = 1000.
Proof.
  intros Hc. split; [intros Hk; split|].
  - apply setsetting_past_the_table; lia.
  - intros H1. destruct k as [|k]; [lia|].
    pose proof (setsetting_past_the_table beyond c (S k) ltac:(lia) ltac:(lia))
      as Hi.
    rewrite iterate_succ in *. unfold setsetting at 1 in Hi.
    unfold setsetting at 1. cbn [TBI TotalBits] in *.
    rewrite Hi. unfold tbit_read.
    destruct (TBI c + Z.of_nat (S k) <? 6) eqn:E; [|reflexivity].
    apply Z.ltb_lt in E. lia.
  - replace (Z.to_nat (256 - TBI c)) with (S (Z.to_nat (255 - TBI c))) by lia.
    rewrite iterate_succ. unfold setsetting at 1 3. cbn [TBI TotalBits].
    rewrite setsetting_past_the_table by lia.
    replace (TBI c + Z.of_nat (Z.to_nat (255 - TBI c)) + 1) with 256 by lia.
    split; reflexivity.
Qed.

Lemma setsetting_leaves_bad_index_until_wrap_witness :
  (Z.of_nat 3 < 256 - TBI index_200_settings ->
   TBI (iterate 3 (setsetting (fun _ => 0)) index_200_settings)
   = TBI index_200_settings + Z.of_nat 3 /\
   (1 <= Z.of_nat 3 ->
    TotalBits (iterate 3 (setsetting (fun _ => 0)) index_200_settings)
    = CCS.int16 ((fun _ => 0) (TBI index_200_settings + Z.of_nat 3)))) /\
  TBI (iterate (Z.to_nat (256 - TBI index_200_settings))
               (setsetting (fun _ => 0)) index_200_settings) = 0 /\
  TotalBits (iterate (Z.to_nat (256 - TBI index_200_settings))
                     (setsetting (fun _ => 0)) index_200_settings) = 1000.
Proof.
  apply (setsetting_leaves_bad_index_until_wrap
           (fun _ => 0) index_200_settings 3).
  change (6 <= 200 < 256). lia.
Defined.

(** ** Saving and reloading the settings *)

Lemma read_after_write (a : nat) : forall (e : list Z) (v : Z),
  CCS.read_eeprom (CCS.write_eeprom e a v) a = CCS.int8 v.
Proof.
  unfold CCS.read_eeprom, CCS.int8.
  induction a as [|a IH]; intros [|x e] v; simpl;
    try (apply Z.mod_mod; lia); apply IH.
Qed.

Lemma read_other_address (a : nat) : forall (b : nat) (e : list Z) (v : Z),
  a <> b ->
  CCS.read_eeprom (CCS.write_eeprom e a v) b = CCS.read_eeprom e b.
Proof.
  unfold CCS.read_eeprom.
  induction a as [|a IH]; intros [|b] [|x e] v Hne; simpl;
    try reflexivity; try congruence.
  - destruct b; reflexivity.
  - specialize (IH b [] v ltac:(congruence)). simpl in IH.
    rewrite IH. destruct b; reflexivity.
  - apply IH. congruence.
Qed.

Lemma short_round_trip (b : bool) :
  CCS.short_of_int8 (CCS.int8 (CCS.int8_of_short b)) = b.
Proof. destruct b; reflexivity. Qed.

(** X14. Save, then load: settings saved with both keys are the settings the next
    power-on loads (no key held), provided they are consistent, as settings
    loaded by [main] and changed by [setsetting] are. *)
Theorem saved_settings_are_reloaded
        (beyond : Z -> Z) (c : settings) (eeprom : list Z) :
  consistent beyond c ->
  main_load beyond (save_settings c eeprom) false false = c.
Proof.
  intros (Hi & Ht & Htot). unfold main_load, save_settings.
  repeat (rewrite ?read_after_write;
          rewrite ?read_other_address by discriminate).
  rewrite !short_round_trip. unfold CCS.int8.
  rewrite !Z.mod_small by lia. rewrite <- Htot.
  destruct c; reflexivity.
Qed.

Lemma saved_settings_are_reloaded_witness :
  main_load (fun _ => 0)
            (save_settings (setsetting (fun _ => 0) factory_settings)
                           default_eeprom) false false
  = setsetting (fun _ => 0) factory_settings.
Proof.
  apply (saved_settings_are_reloaded
           (fun _ => 0) (setsetting (fun _ => 0) factory_settings)
           default_eeprom).
  unfold consistent. repeat split; vm_compute; congruence.
Defined.

(** X15. Saving writes the four configuration bytes and nothing else: every
    EEPROM address from 4 on reads as before, and addresses 0 to 3 read as
    the flags, the index and the threshold. *)
Theorem save_writes_four_bytes
        (c : settings) (eeprom : list Z) (a : nat) :
  (4 <= a)%nat ->
  CCS.read_eeprom (save_settings c eeprom) a = CCS.read_eeprom eeprom a /\
  CCS.read_eeprom (save_settings c eeprom) 0
  = CCS.int8_of_short (ClockNeg c) /\
  CCS.read_eeprom (save_settings c eeprom) 1
  = CCS.int8_of_short (DataNeg c) /\
  CCS.read_eeprom (save_settings c eeprom) 2 = CCS.int8 (TBI c) /\
  CCS.read_eeprom (save_settings c eeprom) 3 = CCS.int8 (ThresError c).
Proof.
  intros Ha. unfold save_settings.
  repeat split;
    repeat (rewrite ?read_after_write;
            rewrite ?read_other_address by (try discriminate; lia));
    try reflexivity.
  - destruct (ClockNeg c); reflexivity.
  - destruct (DataNeg c); reflexivity.
Qed.

Lemma save_writes_four_bytes_witness :
  CCS.read_eeprom (save_settings factory_settings [0; 0; 2; 10; 77]) 4
  = CCS.read_eeprom [0; 0; 2; 10; 77] 4 /\
  CCS.read_eeprom (save_settings factory_settings [0; 0; 2; 10; 77]) 0
  = CCS.int8_of_short (ClockNeg factory_settings) /\
  CCS.read_eeprom (save_settings factory_settings [0; 0; 2; 10; 77]) 1
  = CCS.int8_of_short (DataNeg factory_settings) /\
  CCS.read_eeprom (save_settings factory_settings [0; 0; 2; 10; 77]) 2
  = CCS.int8 (TBI factory_settings) /\
  CCS.read_eeprom (save_settings factory_settings [0; 0; 2; 10; 77]) 3
  = CCS.int8 (ThresError factory_settings).
Proof.
  apply (save_writes_four_bytes factory_settings [0; 0; 2; 10; 77] 4). lia.
Defined.

(** ** The menu loop of [main] *)

Lemma tbit_entries (beyond : Z -> Z) (i : Z) :
  0 <= i < 6 ->
  In (tbit_read beyond i) tbit /\ 0 <= tbit_read beyond i < 65536.
Proof.
  intros H.
  destruct (valid_index_cases _ H) as [E|[E|[E|[E|[E|E]]]]]; rewrite E;
    vm_compute; intuition congruence.
Qed.

Lemma main_pass_sound (beyond : Z -> Z) (DATA_IN : nat -> bool) (fuel : nat)
      (k : keys) (s s' : system) :
  sound_unit beyond s ->
  main_pass beyond DATA_IN fuel k s = Some s' ->
  sound_unit beyond s'.
Proof.
  intros (Hi & Ht & Hs) Hpass. unfold main_pass in Hpass.
  destruct (key_sel k), (key_trig k).
  - injection Hpass as <-. unfold sound_unit. cbn [sys_settings sys_screens].
    repeat split; auto; lia.
  - unfold measure_and_show in Hpass.
    destruct (countber (sys_settings s) DATA_IN fuel (sys_machine s))
      as [m1|] eqn:E; [|discriminate].
    unfold show_ber in Hpass.
    destruct (if key_trig_at_result k
              then countber (sys_settings s) DATA_IN fuel m1
              else Some m1) as [m2|]; [|discriminate].
    injection Hpass as <-. unfold sound_unit.
    cbn [sys_settings sys_screens].
    split; [exact Hi|]. split; [exact Ht|].
    constructor; [|exact Hs].
    destruct (tbit_entries beyond _ Hi) as [Hin Hrange].
    rewrite <- Ht in Hin, Hrange.
    destruct (countber_final _ _ _ _ _ Hrange E) as (Hc & He & _).
    cbn [show_ber_screen screen_C screen_E]. rewrite Hc. split; auto.
  - injection Hpass as <-. unfold sound_unit.
    cbn [sys_settings sys_screens].
    destruct (setsetting_valid beyond (sys_settings s) Hi) as (Hi' & _ & _).
    split; [rewrite Hi'; apply Z.mod_pos_bound; lia|].
    split; [reflexivity | exact Hs].
  - injection Hpass as <-. unfold sound_unit. repeat split; auto; lia.
Qed.

(** X16. With a valid stored index, the division of [show_ber] is never by zero:
    whatever keys are pressed in whatever order (measurements, length
    changes, saves), every result screen shown has as divisor one of the six
    table lengths, and an error count between 0 and that divisor. *)
Theorem valid_index_never_divides_by_zero
        (beyond : Z -> Z) (DATA_IN : nat -> bool) (fuel : nat)
        (eeprom : list Z) (sw_sel sw_trig : bool) (ks : list keys)
        (s : system) :
  CCS.read_eeprom eeprom 2 < 6 ->
  main beyond DATA_IN fuel eeprom sw_sel sw_trig ks = Some s ->
  0 <= TBI (sys_settings s) < 6 /\
  Forall (fun scr => In (screen_C scr) tbit /\
                     0 <= screen_E scr <= screen_C scr)
         (sys_screens s).
Proof.
  intros Hidx Hrun. unfold main in Hrun.
  assert (Hstart : sound_unit beyond
                     (mkSystem (main_load beyond eeprom sw_sel sw_trig)
                               power_on eeprom [])).
  { unfold sound_unit. cbn [sys_settings sys_screens main_load TBI TotalBits].
    repeat split; auto.
    unfold CCS.read_eeprom, CCS.int8. apply Z.mod_pos_bound. lia. }
  revert Hstart Hrun.
  generalize (mkSystem (main_load beyond eeprom sw_sel sw_trig) power_on
                       eeprom []) as s0.
  induction ks as [|k ks IH]; intros s0 Hs0 Hrun; simpl in Hrun.
  - injection Hrun as <-. destruct Hs0 as (Hi & _ & Hs). split; auto.
  - destruct (main_pass beyond DATA_IN fuel k s0) as [s1|] eqn:E;
      [|discriminate].
    apply (IH s1); [|exact Hrun].
    apply (main_pass_sound beyond DATA_IN fuel k s0 s1); assumption.
Qed.

Lemma valid_index_never_divides_by_zero_witness :
  exists s,
    main (fun _ => 0) (fun _ => false) 5000 default_eeprom false false
         [mkKeys false true false; mkKeys false true false;
          mkKeys false true false; mkKeys false true false;
          mkKeys true true false; mkKeys true false true]
    = Some s /\
    0 <= TBI (sys_settings s) < 6 /\
    Forall (fun scr => In (screen_C scr) tbit /\
                       0 <= screen_E scr <= screen_C scr)
           (sys_screens s).
Proof.
  eexists. split; [vm_compute; reflexivity|].
  apply (valid_index_never_divides_by_zero
           (fun _ => 0) (fun _ => false) 5000 default_eeprom false false
           [mkKeys false true false; mkKeys false true false;
            mkKeys false true false; mkKeys false true false;
            mkKeys true true false; mkKeys true false true]).
  - change (2 < 6). lia.
  - vm_compute. reflexivity.
Defined.

(** ** The expected bits depend on cells 7 to 15 only *)

Lemma window_advance (t u : list bool) :
  length t = 16%nat -> length u = 16%nat ->
  skipn 7 t = skipn 7 u ->
  skipn 7 (advance t) = skipn 7 (advance u) /\ expected t = expected u.
Proof.
  intros Ht Hu H. name_cells t Ht. name_cells u Hu. simpl in H.
  injection H; intros; subst. split; reflexivity.
Qed.

(** X1. The generator is PN9: from any 16-cell register the expected bits obey
    [s(n+9) = s(n+4) xor s(n)], and they are a function of cells 7 to 15
    alone; cells 0 to 6 only hold bits on their way out. *)
Theorem expected_bits_are_PN9 (t u : list bool) (n : nat) :
  length t = 16%nat -> length u = 16%nat ->
  expected (advance_n (n + 9) t)
  = xorb (expected (advance_n (n + 4) t)) (expected (advance_n n t)) /\
  (skipn 7 t = skipn 7 u ->
   expected (advance_n n t) = expected (advance_n n u)).
Proof.
  intros Ht Hu. split; [apply expected_PN9, Ht|].
  revert t u Ht Hu. induction n as [|n IH]; intros t u Ht Hu H.
  - apply (window_advance t u Ht Hu H).
  - simpl. apply IH; auto using advance_length.
    apply (window_advance t u Ht Hu H).
Qed.

Lemma expected_bits_are_PN9_witness :
  expected (advance_n (20 + 9) tap_init)
  = xorb (expected (advance_n (20 + 4) tap_init))
         (expected (advance_n 20 tap_init)) /\
  (skipn 7 tap_init = skipn 7 (repeat false 7 ++ repeat true 9) ->
   expected (advance_n 20 tap_init)
   = expected (advance_n 20 (repeat false 7 ++ repeat true 9))).
Proof.
  apply (expected_bits_are_PN9 tap_init (repeat false 7 ++ repeat true 9) 20);
    reflexivity.
Defined.
